(** * Memory compression engine of the code agent

    A shallow embedding of [src/memory/memory_compression.py]: the
    type-dispatched compression strategies, the importance score, the
    bounded store with its eviction policy, ranked search and reset.

    Modelling conventions.
    - A Python [str] is a [string] of code points 0..255; [lower],
      [strip] and the regular-expression classes follow CPython on that
      range.
    - A Python [float] is an exact rational ([Q]); rounding is outside
      the model, and numeric equality is [==].
    - A [dict] whose iteration order is observed (the entry table) is an
      association list in insertion order; a [dict] that is only looked
      up (summaries, the caller's context) is a [gmap].
    - The clock and the MD5 digest are inputs of the operations that
      read them. *)

From stdpp Require Import gmap strings.
From Stdlib Require Import String Ascii List ZArith QArith Qminmax Qround.
From Stdlib Require Import Lia Lqa Permutation Sorted DecimalString Bool.
From Stdlib Require Import DecimalPos DecimalZ.
Import ListNotations.

Close Scope Q_scope.
Local Open Scope string_scope.
Local Open Scope bool_scope.
Local Open Scope nat_scope.

(** ** Characters *)

Module Char.

Definition code (c : ascii) : N := N_of_ascii c.

Definition in_range (lo hi : N) (c : ascii) : bool :=
  (lo <=? code c)%N && (code c <=? hi)%N.

Definition is_code (n : N) (c : ascii) : bool := (code c =? n)%N.

(** [str.isspace] on one code point: TAB..CR, FS..US, SPACE, NEL, NBSP. *)
Definition is_space (c : ascii) : bool :=
  in_range 9 13 c || in_range 28 32 c || is_code 133 c || is_code 160 c.

Definition is_upper (c : ascii) : bool := in_range 65 90 c.
Definition is_lower (c : ascii) : bool := in_range 97 122 c.
Definition is_digit (c : ascii) : bool := in_range 48 57 c.

(** The regular-expression class [\w]: alphanumeric code points and the
    underscore. *)
Definition is_word (c : ascii) : bool :=
  is_upper c || is_lower c || is_digit c || is_code 95 c
  || is_code 170 c || is_code 178 c || is_code 179 c || is_code 181 c
  || is_code 185 c || is_code 186 c || in_range 188 190 c
  || in_range 192 214 c || in_range 216 246 c || in_range 248 255 c.

(** The class [.] without DOTALL. *)
Definition not_newline (c : ascii) : bool := negb (is_code 10 c).

(** [str.lower] on one code point. *)
Definition lower (c : ascii) : ascii :=
  if is_upper c || (in_range 192 222 c && negb (is_code 215 c))
  then ascii_of_N (code c + 32)
  else c.

End Char.

(** ** Strings *)

Module Str.

Definition newline : ascii := ascii_of_N 10.

Definition is_empty (s : string) : bool :=
  match s with EmptyString => true | String _ _ => false end.

(** [s.lower()] *)
Fixpoint lower (s : string) : string :=
  match s with
  | EmptyString => EmptyString
  | String a s' => String (Char.lower a) (lower s')
  end.

(** [needle in hay] *)
Fixpoint contains (needle hay : string) : bool :=
  String.prefix needle hay ||
  match hay with
  | EmptyString => false
  | String _ hay' => contains needle hay'
  end.

(** [s.split(c)] for a one-character separator. *)
Fixpoint split (c : ascii) (s : string) : list string :=
  match s with
  | EmptyString => [EmptyString]
  | String a s' =>
      if Ascii.eqb a c then EmptyString :: split c s'
      else match split c s' with
           | h :: t => String a h :: t
           | [] => [String a EmptyString]
           end
  end.

Fixpoint lstrip (s : string) : string :=
  match s with
  | EmptyString => EmptyString
  | String a s' => if Char.is_space a then lstrip s' else s
  end.

Fixpoint rstrip (s : string) : string :=
  match s with
  | EmptyString => EmptyString
  | String a s' =>
      let r := rstrip s' in
      if Char.is_space a && is_empty r then EmptyString else String a r
  end.

(** [s.strip()] *)
Definition strip (s : string) : string := rstrip (lstrip s).

(** [s[:n]] for [n >= 0] *)
Fixpoint take (n : nat) (s : string) : string :=
  match n, s with
  | S n', String a s' => String a (take n' s')
  | _, _ => EmptyString
  end.

Fixpoint drop (n : nat) (s : string) : string :=
  match n, s with
  | S n', String _ s' => drop n' s'
  | _, _ => s
  end.

(** [s[-n:]] for [n > 0] *)
Definition take_last (n : nat) (s : string) : string :=
  drop (String.length s - n) s.

(** [sep.join(l)] *)
Definition join (sep : string) (l : list string) : string :=
  String.concat sep l.

(** [str(n)] for a non-negative integer *)
Definition of_nat (n : nat) : string :=
  NilZero.string_of_uint (Nat.to_uint n).

(** [str(z)] *)
Definition of_Z (z : Z) : string :=
  NilZero.string_of_int (Z.to_int z).

(** [any(w in s for w in words)] *)
Definition contains_any (words : list string) (s : string) : bool :=
  existsb (fun w => contains w s) words.

End Str.

(** [l[-n:]] on lists, for [n > 0] *)
Definition last_n {A : Type} (n : nat) (l : list A) : list A :=
  skipn (List.length l - n) l.

(** ** Regular expressions

    The fragment of [re] the module uses: literals, character classes,
    greedy repetition of a class, sequence, ordered alternation and the
    anchor [^].  Matching is by backtracking in the order of [re]:
    alternatives left to right, repetitions longest first. *)

Module Re.

Inductive regex : Type :=
| Eps
| Bol
| Cls (p : ascii -> bool)
| Star (p : ascii -> bool)
| Seq (r1 r2 : regex)
| Alt (r1 r2 : regex).

Definition Plus (p : ascii -> bool) : regex := Seq (Cls p) (Star p).

Fixpoint Lit (s : string) : regex :=
  match s with
  | EmptyString => Eps
  | String a s' => Seq (Cls (Ascii.eqb a)) (Lit s')
  end.

(** A continuation receives whether [^] matches at the current position
    and the text still to read; it answers with the text left after the
    whole match. *)
Definition cont : Type := bool -> string -> option string.

Definition or_else (a b : option string) : option string :=
  match a with Some _ => a | None => b end.

Section Matcher.

(** re.MULTILINE *)
Variable multiline : bool.

Definition after (a : ascii) : bool := multiline && Ascii.eqb a Str.newline.

Fixpoint greedy (p : ascii -> bool) (k : cont) (bol : bool) (s : string)
  : option string :=
  match s with
  | String a s' =>
      if p a then or_else (greedy p k (after a) s') (k bol s) else k bol s
  | EmptyString => k bol s
  end.

Fixpoint run (r : regex) (k : cont) (bol : bool) (s : string)
  : option string :=
  match r with
  | Eps => k bol s
  | Bol => if bol then k bol s else None
  | Cls p =>
      match s with
      | String a s' => if p a then k (after a) s' else None
      | EmptyString => None
      end
  | Star p => greedy p k bol s
  | Seq r1 r2 => run r1 (run r2 k) bol s
  | Alt r1 r2 => or_else (run r1 k bol s) (run r2 k bol s)
  end.

(** The match starting at the current position, as its length. *)
Definition match_here (r : regex) (bol : bool) (s : string) : option nat :=
  match run r (fun _ rest => Some rest) bol s with
  | Some rest => Some (String.length s - String.length rest)
  | None => None
  end.

(** [re.search]: the leftmost position with a match. *)
Fixpoint search_from (r : regex) (bol : bool) (s : string) : bool :=
  match match_here r bol s with
  | Some _ => true
  | None =>
      match s with
      | String a s' => search_from r (after a) s'
      | EmptyString => false
      end
  end.

(** [len(re.findall)]: the number of non-overlapping matches, scanning
    left to right; [skip] counts the characters of the last match that
    are still to be passed.  Every pattern counted in this module
    matches at least one character. *)
Fixpoint count_from (r : regex) (bol : bool) (skip : nat) (s : string)
  : nat :=
  match skip, s with
  | S skip', String a s' => count_from r (after a) skip' s'
  | S _, EmptyString => 0
  | O, String a s' =>
      match match_here r bol s with
      | Some n => S (count_from r (after a) (Nat.pred n) s')
      | None => count_from r (after a) 0 s'
      end
  | O, EmptyString =>
      match match_here r bol s with Some _ => 1 | None => 0 end
  end.

End Matcher.

(** [re.match(r, s)] without flags *)
Definition re_match (r : regex) (s : string) : bool :=
  match match_here false r true s with Some _ => true | None => false end.

(** [re.search(r, s)] without flags *)
Definition re_search (r : regex) (s : string) : bool :=
  search_from false r true s.

(** [len(re.findall(r, s, re.MULTILINE))] *)
Definition findall_count (r : regex) (s : string) : nat :=
  count_from true r true 0 s.

Definition ws : regex := Cls Char.is_space.
Definition ws_plus : regex := Plus Char.is_space.
Definition ws_star : regex := Star Char.is_space.
Definition word_plus : regex := Plus Char.is_word.
Definition dot_star : regex := Star Char.not_newline.
Definition digit_plus : regex := Plus Char.is_digit.

Fixpoint seq (rs : list regex) : regex :=
  match rs with
  | [] => Eps
  | [r] => r
  | r :: rs' => Seq r (seq rs')
  end.

Fixpoint alt (rs : list regex) : regex :=
  match rs with
  | [] => Eps
  | [r] => r
  | r :: rs' => Alt r (alt rs')
  end.

End Re.

(** ** Compression strategies *)

Module Compress.

Definition dquote : ascii := ascii_of_N 34.
Definition nl : string := String Str.newline EmptyString.

Definition important_words : list string :=
  ["understand"; "need"; "should"; "must"; "important"; "key"; "solution";
   "problem"].

Definition conversation_key (sentence : string) : bool :=
  (10 <? String.length sentence)
  && Str.contains_any important_words (Str.lower sentence).

Definition _compress_conversation (content : string) : string :=
  let sentences := Str.split "." content in
  let key_sentences := filter conversation_key (map Str.strip sentences) in
  let compressed :=
    if 10 <? List.length sentences
    then (firstn 3 sentences ++ ["[...]"] ++ key_sentences ++ ["[...]"]
          ++ last_n 3 sentences)%list
    else sentences in
  Str.join ". " compressed.

(** [self.code_patterns], in the order of the dictionary. *)
Definition code_patterns : list (string * Re.regex) :=
  [ ("import",
     Re.seq [Re.Bol; Re.Alt (Re.Lit "import") (Re.Lit "from"); Re.ws_plus;
             Re.word_plus]);
    ("function_def", Re.seq [Re.Bol; Re.Lit "def"; Re.ws_plus; Re.word_plus]);
    ("class_def", Re.seq [Re.Bol; Re.Lit "class"; Re.ws_plus; Re.word_plus]);
    ("variable_assignment",
     Re.seq [Re.Bol; Re.word_plus; Re.ws_star; Re.Lit "="; Re.ws_star]);
    ("error_traceback",
     Re.Alt (Re.seq [Re.Lit "Traceback"; Re.dot_star; Re.Lit "Error:"])
            (Re.seq [Re.Lit "File "; Re.Cls (Ascii.eqb dquote); Re.dot_star;
                     Re.Cls (Ascii.eqb dquote); Re.dot_star; Re.Lit "line ";
                     Re.digit_plus]));
    ("test_result",
     Re.alt [Re.Lit "PASSED"; Re.Lit "FAILED"; Re.Lit "ERROR";
             Re.Lit "SKIPPED"]) ].

Definition code_line_kept (line : string) : bool :=
  negb (Str.is_empty line)
  && negb (String.prefix "#" line)
  && existsb (fun np => Re.re_match (snd np) line) code_patterns.

Definition code_header (total kept : nat) : string :=
  "# Code compressed: " ++ Str.of_nat total ++ " -> " ++ Str.of_nat kept
  ++ " lines".

Definition _compress_code (code : string) : string :=
  let lines := Str.split Str.newline code in
  let compressed_lines := filter code_line_kept (map Str.strip lines) in
  let compressed_lines :=
    if List.length compressed_lines * 2 <? List.length lines
    then code_header (List.length lines) (List.length compressed_lines)
         :: compressed_lines
    else compressed_lines in
  Str.join nl compressed_lines.

Definition error_markers : list string :=
  ["error:"; "exception:"; "traceback"; "file " ++ String dquote EmptyString;
   "line"].

(** [[A-Z][a-z]+Error:] *)
Definition error_class_re : Re.regex :=
  Re.seq [Re.Cls Char.is_upper; Re.Plus Char.is_lower; Re.Lit "Error:"].

Definition error_line_kept (line : string) : bool :=
  Str.contains_any error_markers (Str.lower line)
  || Re.re_search error_class_re line.

Definition error_marker (omitted : nat) : string :=
  "[... " ++ Str.of_nat omitted ++ " more error lines ...]".

Definition error_key_lines (error_content : string) : list string :=
  filter error_line_kept (map Str.strip (Str.split Str.newline error_content)).

Definition _compress_error (error_content : string) : string :=
  let key_lines := error_key_lines error_content in
  let key_lines :=
    if 20 <? List.length key_lines
    then (firstn 10 key_lines
          ++ [error_marker (List.length key_lines - 20)]
          ++ last_n 10 key_lines)%list
    else key_lines in
  match key_lines with
  | [] => Str.take 500 error_content ++ "..."
  | _ :: _ => Str.join nl key_lines
  end.

Definition action_words : list string :=
  ["step"; "solution"; "fix"; "implement"; "change"; "add"; "remove"].

Definition is_bullet (c : ascii) : bool :=
  Ascii.eqb c "-" || Ascii.eqb c "*" || Ascii.eqb c "+".

(** [^\d+\.|^[-*+]\s] *)
Definition step_re : Re.regex :=
  Re.Alt (Re.seq [Re.Bol; Re.digit_plus; Re.Lit "."])
         (Re.seq [Re.Bol; Re.Cls is_bullet; Re.ws]).

Definition solution_line_kept (line : string) : bool :=
  Re.re_match step_re line
  || Str.contains_any action_words (Str.lower line).

Definition _compress_solution (solution : string) : string :=
  let lines := Str.split Str.newline solution in
  let key_steps := filter solution_line_kept (map Str.strip lines) in
  let compressed :=
    if List.length key_steps * 2 <? List.length lines
    then (firstn 2 lines ++ key_steps ++ last_n 2 lines)%list
    else key_steps in
  Str.join nl compressed.

Definition generic_marker : string := nl ++ "[... compressed ...]" ++ nl.

Definition _compress_generic (content : string) : string :=
  if 500 <? String.length content
  then Str.take 250 content ++ generic_marker ++ Str.take_last 250 content
  else content.

Definition _compress_by_type (content memory_type : string) : string :=
  if String.eqb memory_type "conversation" then _compress_conversation content
  else if String.eqb memory_type "code" then _compress_code content
  else if String.eqb memory_type "error" then _compress_error content
  else if String.eqb memory_type "solution" then _compress_solution content
  else _compress_generic content.

End Compress.

(** ** Scoring engine *)

Module Score.

Definition of_len (n : nat) : Q := inject_Z (Z.of_nat n).

(** [sum(l)]: left to right from zero. *)
Definition sum (l : list Q) : Q := fold_left Qplus l 0%Q.

(** The table of [_calculate_code_complexity]. *)
Definition complexity_indicators : list (Re.regex * Q) :=
  [ (Re.seq [Re.Lit "def"; Re.ws_plus; Re.word_plus], 0.1%Q);
    (Re.seq [Re.Lit "class"; Re.ws_plus; Re.word_plus], 0.15%Q);
    (Re.seq [Re.Lit "if"; Re.ws_plus; Re.dot_star; Re.Lit ":"], 0.05%Q);
    (Re.seq [Re.Lit "for"; Re.ws_plus; Re.dot_star; Re.Lit ":"], 0.05%Q);
    (Re.seq [Re.Lit "while"; Re.ws_plus; Re.dot_star; Re.Lit ":"], 0.05%Q);
    (Re.Lit "try:", 0.1%Q);
    (Re.seq [Re.Lit "import"; Re.ws_plus; Re.word_plus], 0.02%Q);
    (Re.alt [Re.seq [Re.Lit "#"; Re.dot_star; Re.Lit "TODO"]; Re.Lit "FIXME";
             Re.Lit "NOTE"], 0.1%Q) ].

Definition indicator_score (code : string) (pw : Re.regex * Q) : Q :=
  Qmin (of_len (Re.findall_count (fst pw) code) * snd pw) 0.5.

Definition _calculate_code_complexity (code : string) : Q :=
  let total_score :=
    fold_left (fun acc pw => (acc + indicator_score code pw)%Q)
              complexity_indicators 0%Q in
  Qmin total_score 1.

Definition error_keywords : list string :=
  ["error"; "exception"; "failed"; "traceback"; "bug"; "fix"].

Definition keyword_hits (content : string) : nat :=
  List.length
    (filter (fun keyword => Str.contains (Str.lower keyword) (Str.lower content))
            error_keywords).

(** The caller's context: [None] is Python's [None]; the values read by
    the engine are numbers. *)
Definition context_t : Type := option (gmap string Q).

(** [context and 'relevance' in context], with the value found. *)
Definition relevance_of (context : context_t) : option Q :=
  match context with
  | None => None
  | Some c => if bool_decide (c = ∅) then None else c !! "relevance"
  end.

Definition _calculate_importance
    (content memory_type : string) (context : context_t) : Q :=
  let importance_factors : list Q := [] in
  let length_score := Qmin (of_len (String.length content) / 1000) 1 in
  let importance_factors := (importance_factors ++ [length_score * 0.2])%Q%list in
  let error_score :=
    (of_len (keyword_hits content) / of_len (List.length error_keywords))%Q in
  let importance_factors :=
    (importance_factors ++ [Qmin error_score 1 * 0.3])%Q%list in
  let importance_factors :=
    if String.eqb memory_type "code"
    then (importance_factors ++ [_calculate_code_complexity content * 0.2])%Q%list
    else importance_factors in
  let importance_factors :=
    match relevance_of context with
    | Some relevance => (importance_factors ++ [relevance * 0.2])%Q%list
    | None => importance_factors
    end in
  let importance_factors := (importance_factors ++ [0.1%Q])%list in
  sum importance_factors.

End Score.

(** ** Python lists and insertion-ordered dictionaries *)

Module Py.

(** [l[:n]] for any integer [n] *)
Definition slice_to {A : Type} (n : Z) (l : list A) : list A :=
  if (n <? 0)%Z
  then firstn (Z.to_nat (Z.of_nat (List.length l) + n)) l
  else firstn (Z.to_nat n) l.

Section Sort.
Context {A : Type}.
(** [lt a b]: [a] sorts strictly before [b]. *)
Variable lt : A -> A -> bool.

Fixpoint insert_sorted (x : A) (l : list A) : list A :=
  match l with
  | [] => [x]
  | y :: l' => if lt y x then y :: insert_sorted x l' else x :: l
  end.

(** [list.sort]: a stable sort; an element moves only past elements
    that sort strictly before it. *)
Definition sort (l : list A) : list A := fold_right insert_sorted [] l.
End Sort.

Section Dict.
Context {V : Type}.

Definition dict : Type := list (string * V).

(** [d.get(k)] *)
Fixpoint get (k : string) (d : dict) : option V :=
  match d with
  | [] => None
  | (k', v) :: d' => if String.eqb k k' then Some v else get k d'
  end.

(** [d[k] = v]: a present key keeps its place, a new key goes last. *)
Fixpoint set (k : string) (v : V) (d : dict) : dict :=
  match d with
  | [] => [(k, v)]
  | (k', v') :: d' =>
      if String.eqb k k' then (k, v) :: d' else (k', v') :: set k v d'
  end.

(** [del d[k]] for a present key *)
Fixpoint del (k : string) (d : dict) : dict :=
  match d with
  | [] => []
  | (k', v') :: d' => if String.eqb k k' then d' else (k', v') :: del k d'
  end.

Definition keys (d : dict) : list string := map fst d.
Definition values (d : dict) : list V := map snd d.

(** The invariant of a dictionary: no key twice. *)
Definition wf (d : dict) : Prop := NoDup (keys d).
End Dict.

Arguments dict V : clear implicits.

End Py.

(** ** The memory store *)

Record CompressedMemory : Type := mkCompressedMemory {
  memory_id : string;
  (** the creation time, in seconds since the epoch; the source keeps it
      in ISO format and reads it back with [fromisoformat] *)
  timestamp : Q;
  memory_type : string;
  original_content : string;
  compressed_content : string;
  key_entities : list string;
  importance_score : Q;
  compression_ratio : Q;
  metadata : gmap string Q
}.

Module Summary.
Record MemorySummary : Type := mkMemorySummary {
  summary_id : string;
  timestamp : Q;
  summary_type : string;
  key_points : list string;
  entities : list string;
  patterns : list string;
  decisions : list string;
  compressed_memories : list string
}.
End Summary.

Record MemoryCompressor : Type := mkMemoryCompressor {
  max_memory_size : Z;
  compression_threshold : Q;
  importance_threshold : Q;
  compressed_memories : Py.dict CompressedMemory;
  memory_summaries : gmap string Summary.MemorySummary;
  (** [deque(maxlen=100)] *)
  recent_memories : list string;
  total_original_size : Z;
  total_compressed_size : Z;
  compression_count : Z
}.

(** [MemoryCompressor.__init__] *)
Definition init (max_memory_size : Z) (compression_threshold : Q)
    (importance_threshold : Q) : MemoryCompressor :=
  {| max_memory_size := max_memory_size;
     compression_threshold := compression_threshold;
     importance_threshold := importance_threshold;
     compressed_memories := [];
     memory_summaries := ∅;
     recent_memories := [];
     total_original_size := 0;
     total_compressed_size := 0;
     compression_count := 0 |}.

(** [MemoryCompressor()] *)
Definition default_compressor : MemoryCompressor := init 1000 0.7%Q 0.5%Q.

Definition size (mc : MemoryCompressor) : nat :=
  List.length (compressed_memories mc).

Definition len (s : string) : Z := Z.of_nat (String.length s).

(** [deque.append] with [maxlen=100] *)
Definition ring_append (ring : list string) (x : string) : list string :=
  let ring := (ring ++ [x])%list in
  if 100 <? List.length ring then tl ring else ring.

(** *** Eviction *)

Definition week : Q := 7 * 24 * 3600.

Definition recency_score (current_time memory_time : Q) : Q :=
  Qmax 0 (1 - (current_time - memory_time) / week).

Definition combined_score (current_time : Q) (memory : CompressedMemory) : Q :=
  (importance_score memory * 0.7
   + recency_score current_time (timestamp memory) * 0.3)%Q.

Definition Qltb (a b : Q) : bool := negb (Qle_bool b a).

(** The order of Python on the pairs [(combined_score, memory_id)]. *)
Definition pair_lt (a b : Q * string) : bool :=
  if Qeq_bool (fst a) (fst b) then String.ltb (snd a) (snd b)
  else Qltb (fst a) (fst b).

Definition memories_with_scores (current_time : Q) (mc : MemoryCompressor)
  : list (Q * string) :=
  map (fun kv => (combined_score current_time (snd kv), fst kv))
      (compressed_memories mc).

(** One turn of the removal loop. *)
Definition remove_memory (mc : MemoryCompressor) (memory_id : string)
  : MemoryCompressor :=
  match Py.get memory_id (compressed_memories mc) with
  | Some memory =>
      {| max_memory_size := max_memory_size mc;
         compression_threshold := compression_threshold mc;
         importance_threshold := importance_threshold mc;
         compressed_memories := Py.del memory_id (compressed_memories mc);
         memory_summaries := memory_summaries mc;
         recent_memories := recent_memories mc;
         total_original_size :=
           total_original_size mc - len (original_content memory);
         total_compressed_size :=
           total_compressed_size mc - len (compressed_content memory);
         compression_count := compression_count mc |}
  | None => mc
  end.

(** The identifiers the removal loop visits. *)
Definition to_evict (current_time : Q) (mc : MemoryCompressor) : list string :=
  let to_remove := (Z.of_nat (size mc) - max_memory_size mc)%Z in
  map snd (Py.slice_to to_remove
             (Py.sort pair_lt (memories_with_scores current_time mc))).

Definition _cleanup_old_memories (current_time : Q) (mc : MemoryCompressor)
  : MemoryCompressor :=
  if (Z.of_nat (size mc) <=? max_memory_size mc)%Z then mc
  else fold_left remove_memory (to_evict current_time mc) mc.

(** *** Insertion *)

(** The three readings of the clock in one call of [compress_memory]:
    for the identifier, for the entry's timestamp and for the eviction. *)
Record Clock : Type := mkClock {
  id_time : Q;
  stamp_time : Q;
  cleanup_time : Q
}.

(** [int(x)]: truncation towards zero *)
Definition int_of (x : Q) : Z := Z.quot (Qnum x) (Zpos (Qden x)).

Section Engine.

(** [hashlib.md5(content.encode()).hexdigest()] *)
Variable md5_hexdigest : string -> string.

(** [_extract_entities]: its result is cut from the iteration of a
    Python [set], whose order the source does not fix. *)
Variable _extract_entities : string -> string -> list string.

Definition _generate_memory_id (now : Q) (content : string) : string :=
  let content_hash := md5_hexdigest content in
  let timestamp := Str.of_Z (int_of (now * 1000)) in
  "mem_" ++ Str.take 8 content_hash ++ "_" ++ timestamp.

(** The entry [compress_memory] builds. *)
Definition new_memory (clock : Clock) (content memory_type : string)
    (context : Score.context_t) : CompressedMemory :=
  let memory_id := _generate_memory_id (id_time clock) content in
  let importance_score :=
    Score._calculate_importance content memory_type context in
  let compressed_content := Compress._compress_by_type content memory_type in
  let key_entities := _extract_entities content memory_type in
  let compression_ratio :=
    if Str.is_empty content then 1%Q
    else (Score.of_len (String.length compressed_content)
          / Score.of_len (String.length content))%Q in
  {| memory_id := memory_id;
     timestamp := stamp_time clock;
     memory_type := memory_type;
     original_content := content;
     compressed_content := compressed_content;
     key_entities := key_entities;
     importance_score := importance_score;
     compression_ratio := compression_ratio;
     metadata := match context with Some c => c | None => ∅ end |}.

(** The store and the statistics after the new entry is recorded,
    before the capacity check. *)
Definition store_memory (mc : MemoryCompressor) (memory : CompressedMemory)
  : MemoryCompressor :=
  {| max_memory_size := max_memory_size mc;
     compression_threshold := compression_threshold mc;
     importance_threshold := importance_threshold mc;
     compressed_memories :=
       Py.set (memory_id memory) memory (compressed_memories mc);
     memory_summaries := memory_summaries mc;
     recent_memories := ring_append (recent_memories mc) (memory_id memory);
     total_original_size :=
       total_original_size mc + len (original_content memory);
     total_compressed_size :=
       total_compressed_size mc + len (compressed_content memory);
     compression_count := compression_count mc + 1 |}.

(** [MemoryCompressor.compress_memory]: the identifier returned and
    the compressor afterwards. *)
Definition compress_memory (mc : MemoryCompressor) (clock : Clock)
    (content memory_type : string) (context : Score.context_t)
  : string * MemoryCompressor :=
  let memory := new_memory clock content memory_type context in
  let mc := store_memory mc memory in
  let mc :=
    if (max_memory_size mc <? Z.of_nat (size mc))%Z
    then _cleanup_old_memories (cleanup_time clock) mc
    else mc in
  (memory_id memory, mc).

End Engine.

(** [get_memory] *)
Definition get_memory (mc : MemoryCompressor) (memory_id : string)
  : option CompressedMemory :=
  Py.get memory_id (compressed_memories mc).

(** [get_summary] *)
Definition get_summary (mc : MemoryCompressor) (summary_id : string)
  : option Summary.MemorySummary :=
  memory_summaries mc !! summary_id.

(** *** Search *)

(** [memory_type and memory.memory_type != memory_type], for the
    optional argument [memory_type] of the search *)
Definition type_filtered (wanted : option string)
    (memory : CompressedMemory) : bool :=
  match wanted with
  | Some t => negb (Str.is_empty t) && negb (String.eqb (memory_type memory) t)
  | None => false
  end.

Definition content_hit (query_lower : string) (memory : CompressedMemory)
  : bool :=
  Str.contains query_lower (Str.lower (compressed_content memory)).

Definition entity_hit (query_lower : string) (memory : CompressedMemory)
  : bool :=
  existsb (fun entity => Str.contains query_lower (Str.lower entity))
          (key_entities memory).

Definition search_score (query_lower : string) (memory : CompressedMemory)
  : Q :=
  let search_score := 0%Q in
  let search_score :=
    if content_hit query_lower memory then (search_score + 1)%Q
    else search_score in
  let search_score :=
    if entity_hit query_lower memory then (search_score + 0.5)%Q
    else search_score in
  (search_score + importance_score memory * 0.3)%Q.

(** The list [results] before it is sorted. *)
Definition scored_results (query : string) (memory_type : option string)
    (mc : MemoryCompressor) : list (Q * CompressedMemory) :=
  let query_lower := Str.lower query in
  flat_map
    (fun memory =>
       if type_filtered memory_type memory then []
       else
         let score := search_score query_lower memory in
         if Qltb 0 score then [(score, memory)] else [])
    (Py.values (compressed_memories mc)).

(** [key=lambda x: x[0], reverse=True] *)
Definition score_desc (a b : Q * CompressedMemory) : bool :=
  Qltb (fst b) (fst a).

Definition search_memories (mc : MemoryCompressor) (query : string)
    (memory_type : option string) (limit : Z) : list CompressedMemory :=
  let results := scored_results query memory_type mc in
  let results := Py.sort score_desc results in
  map snd (Py.slice_to limit results).

(** *** The module-level compressor and its reset *)

(** [reset_memory_compression]: the new value of [_memory_compressor]
    and the message returned. *)
Definition reset_memory_compression (_memory_compressor : MemoryCompressor)
  : MemoryCompressor * string :=
  (default_compressor, "Memory compression system reset successfully.").

(** ** The importance score as the specification words it *)

Module SpecSide.

Definition six_keywords : list string :=
  ["error"; "exception"; "failed"; "traceback"; "bug"; "fix"].

(** The normalised length factor: [min(len(text)/1000, 1)]. *)
Definition length_factor (text : string) : Q :=
  Qmin (Score.of_len (String.length text) / 1000) 1.

(** The fraction of the six keywords found anywhere in the text,
    whatever the case. *)
Definition keyword_fraction (text : string) : Q :=
  (Score.of_len
     (List.length
        (filter (fun k => Str.contains k (Str.lower text)) six_keywords))
   / 6)%Q.

(** The value under the key [relevance], when the context has one. *)
Definition relevance_key (context : Score.context_t) : option Q :=
  match context with
  | Some c => c !! "relevance"
  | None => None
  end.

(** The sum of the weighted factors that are present. *)
Definition importance (text kind : string) (context : Score.context_t) : Q :=
  (0.2 * length_factor text
   + 0.3 * Qmin (keyword_fraction text) 1
   + (if String.eqb kind "code"
      then 0.2 * Score._calculate_code_complexity text else 0)
   + match relevance_key context with
     | Some relevance => 0.2 * relevance
     | None => 0
     end
   + 0.1)%Q.

End SpecSide.

(** ** Measures used in the statements *)

(** No occurrence of the character [c] in [s]. *)
Fixpoint free_of (c : ascii) (s : string) : bool :=
  match s with
  | EmptyString => true
  | String a s' => negb (Ascii.eqb a c) && free_of c s'
  end.

(** What each strategy makes of the empty text. *)
Definition empty_image (memory_type : string) : string :=
  if String.eqb memory_type "conversation" then EmptyString
  else if String.eqb memory_type "code" then "# Code compressed: 1 -> 0 lines"
  else if String.eqb memory_type "error" then "..."
  else if String.eqb memory_type "solution" then Compress.nl
  else EmptyString.

(** The lines of a text, as [split] on the newline sees them. *)
Definition lines_of (s : string) : list string := Str.split Str.newline s.

Definition original_total (l : list CompressedMemory) : Z :=
  fold_right (fun m acc => (len (original_content m) + acc)%Z) 0%Z l.

Definition compressed_total (l : list CompressedMemory) : Z :=
  fold_right (fun m acc => (len (compressed_content m) + acc)%Z) 0%Z l.

(** An entry the search finds by its text or by one of its entities. *)
Definition has_hit (query : string) (memory : CompressedMemory) : bool :=
  content_hit (Str.lower query) memory || entity_hit (Str.lower query) memory.

(** The entries a search retains before it ranks them. *)
Definition retained (query : string) (wanted : option string)
    (mc : MemoryCompressor) : list CompressedMemory :=
  filter (fun m => negb (type_filtered wanted m)
                   && Qltb 0 (search_score (Str.lower query) m))
         (Py.values (compressed_memories mc)).

(** The rank order of the search: a higher score comes first. *)
Definition ranks_before (a b : Q * CompressedMemory) : Prop :=
  (fst b <= fst a)%Q.

(** The order of the eviction on the scores alone. *)
Definition scores_le (a b : Q * string) : Prop := (fst a <= fst b)%Q.

(** ** Concrete inputs *)

Module Examples.

(** A digest function that answers with a fixed digest. *)
Definition md5_const (digest : string) : string -> string := fun _ => digest.

(** A digest stand-in that tells the sample texts apart. *)
Definition md5_sample (content : string) : string :=
  Str.take 4 content ++ "0000000000000000000000000000".

(** The entities of texts without quotes, backquotes or capitalised words. *)
Definition no_entities : string -> string -> list string := fun _ _ => [].

Definition clock_at (t : Q) : Clock := mkClock t t t.

Definition noon : Q := 1700000000.

(** The digest of the empty text. *)
Definition md5_of_empty : string := "d41d8cd98f00b204e9800998ecf8427e".

(** The digest of [hello world]. *)
Definition md5_of_hello : string := "5eb63bbbe01eeed093cb22bb8f5acdc3".

(** A store holding the single entry made from [hello world]. *)
Definition hello_store : MemoryCompressor :=
  snd (compress_memory (md5_const md5_of_hello) no_entities default_compressor
         (clock_at noon) "hello world" "generic" None).

(** One frame line of a traceback. *)
Definition frame_line (i : nat) : string :=
  "  File " ++ String Compress.dquote "example.py"
  ++ String Compress.dquote ", line " ++ Str.of_nat i ++ ", in <module>".

(** A traceback of 25 lines, each one a file reference. *)
Definition traceback25 : string :=
  Str.join Compress.nl (map frame_line (seq 1 25)).

(** A text of 1200 letters without any error marker. *)
Definition long_plain : string :=
  string_of_list_ascii (repeat "a"%char 1200).

(** A store of capacity 2 that is full. *)
Definition full_store : MemoryCompressor :=
  let mc := init 2 0.7%Q 0.5%Q in
  let mc := snd (compress_memory md5_sample no_entities mc (clock_at noon)
                   "alpha note" "generic" (Some {[ "relevance" := 4%Q ]})) in
  snd (compress_memory md5_sample no_entities mc (clock_at noon)
         "beta note" "generic" None).

(** A compressor that holds one summary. *)
Definition summary1 : Summary.MemorySummary :=
  {| Summary.summary_id := "summary_session_1700000000000";
     Summary.timestamp := noon;
     Summary.summary_type := "session";
     Summary.key_points := [];
     Summary.entities := [];
     Summary.patterns := [];
     Summary.decisions := [];
     Summary.compressed_memories := ["mem_5eb63bbb_1700000000000"] |}.

Definition summarised_store : MemoryCompressor :=
  {| max_memory_size := max_memory_size hello_store;
     compression_threshold := compression_threshold hello_store;
     importance_threshold := importance_threshold hello_store;
     compressed_memories := compressed_memories hello_store;
     memory_summaries := {[ "summary_session_1700000000000" := summary1 ]};
     recent_memories := recent_memories hello_store;
     total_original_size := total_original_size hello_store;
     total_compressed_size := total_compressed_size hello_store;
     compression_count := compression_count hello_store |}.

(** The third insertion into the full store. *)
Definition third_insert : string * MemoryCompressor :=
  compress_memory md5_sample no_entities full_store (clock_at noon)
    "gamma note" "generic" (Some {[ "relevance" := 2%Q ]}).

(** An insertion into a new compressor of capacity -1. *)
Definition negative_insert : string * MemoryCompressor :=
  compress_memory md5_sample no_entities (init (-1) 0.7%Q 0.5%Q)
    (clock_at noon) "alpha note" "generic" None.

End Examples.

(** ** Statistics *)

(** [_get_memory_type_distribution]: the kinds with their counts, in
    the order in which the kinds first occur. *)
Definition _get_memory_type_distribution (mc : MemoryCompressor)
  : Py.dict Z :=
  fold_left
    (fun distribution memory =>
       let seen :=
         match Py.get (memory_type memory) distribution with
         | Some n => n
         | None => 0%Z
         end in
       Py.set (memory_type memory) (seen + 1)%Z distribution)
    (Py.values (compressed_memories mc)) [].

Module Stats.

(** The dictionary returned once something has been compressed. *)
Record Report : Type := mkReport {
  total_memories : Z;
  compression_ratio : Q;
  (** the percentage saved; the source renders this number with one
      decimal and a percent sign, a rendering of a float that is
      outside the model *)
  space_saved : Q;
  avg_importance_score : Q;
  total_original_size : Z;
  total_compressed_size : Z;
  memory_types : Py.dict Z
}.

(** The two shapes of the result of [get_compression_stats]. *)
Inductive Result : Type :=
| Nothing (total_memories : Z) (compression_ratio : Q) (space_saved : string)
          (avg_importance_score : Q)
| Full (report : Report).

End Stats.

Definition of_int (z : Z) : Q := inject_Z z.

(** [get_compression_stats]; [None] is the [ZeroDivisionError] of the
    mean over an empty table. *)
Definition get_compression_stats (mc : MemoryCompressor)
  : option Stats.Result :=
  if (compression_count mc =? 0)%Z
  then Some (Stats.Nothing 0 0 "0%" 0)
  else
    let overall_compression_ratio :=
      if (0 <? total_original_size mc)%Z
      then (of_int (total_compressed_size mc)
            / of_int (total_original_size mc))%Q
      else 0%Q in
    let space_saved := ((1 - overall_compression_ratio) * 100)%Q in
    match compressed_memories mc with
    | [] => None
    | _ :: _ =>
        let avg_importance :=
          (Score.sum (map importance_score
                        (Py.values (compressed_memories mc)))
           / Score.of_len (size mc))%Q in
        Some (Stats.Full
                {| Stats.total_memories := Z.of_nat (size mc);
                   Stats.compression_ratio := overall_compression_ratio;
                   Stats.space_saved := space_saved;
                   Stats.avg_importance_score := avg_importance;
                   Stats.total_original_size := total_original_size mc;
                   Stats.total_compressed_size := total_compressed_size mc;
                   Stats.memory_types := _get_memory_type_distribution mc |})
    end.

(** ** Summaries *)

Section Summarizer.

(** The order in which Python iterates the set made of the given
    strings; the source does not fix it. *)
Variable set_iteration : list string -> list string.

(** The key points of one entry: its stripped lines of more than 20
    characters. *)
Definition entry_key_points (memory : CompressedMemory) : list string :=
  filter (fun line => 20 <? String.length line)
         (map Str.strip (Str.split Str.newline (compressed_content memory))).

(** One turn of the loop over the memories: the key points, the
    entities seen and the decisions so far. *)
Definition summary_step
    (acc : list string * list string * list string)
    (memory : CompressedMemory) : list string * list string * list string :=
  let '(key_points, entities, decisions) := acc in
  let key_points := (key_points ++ entry_key_points memory)%list in
  let entities := (entities ++ key_entities memory)%list in
  let tagged := fun point => memory_type memory ++ ":" ++ point in
  let decisions :=
    if String.eqb (memory_type memory) "solution"
    then (decisions ++ map tagged (last_n 3 key_points))%list
    else decisions in
  (key_points, entities, decisions).

(** [generate_summary]: the identifier returned, empty when no memory
    is found, and the compressor afterwards.  [now] is the clock read
    for the identifier, [stamp] the one read for the timestamp. *)
Definition generate_summary (mc : MemoryCompressor) (now stamp : Q)
    (summary_type : string) (memory_ids : option (list string))
  : string * MemoryCompressor :=
  let memory_ids :=
    match memory_ids with
    | Some ids => ids
    | None => recent_memories mc
    end in
  let memories :=
    flat_map (fun mid => match Py.get mid (compressed_memories mc) with
                         | Some memory => [memory]
                         | None => []
                         end) memory_ids in
  match memories with
  | [] => (EmptyString, mc)
  | _ :: _ =>
      let '(key_points, entities, decisions) :=
        fold_left summary_step memories ([], [], []) in
      let summary_id :=
        "summary_" ++ summary_type ++ "_" ++ Str.of_Z (int_of (now * 1000)) in
      let memory_summary :=
        {| Summary.summary_id := summary_id;
           Summary.timestamp := stamp;
           Summary.summary_type := summary_type;
           Summary.key_points := firstn 10 key_points;
           Summary.entities := firstn 15 (set_iteration entities);
           Summary.patterns := [];
           Summary.decisions := decisions;
           Summary.compressed_memories := memory_ids |} in
      (summary_id,
       {| max_memory_size := max_memory_size mc;
          compression_threshold := compression_threshold mc;
          importance_threshold := importance_threshold mc;
          compressed_memories := compressed_memories mc;
          memory_summaries :=
            <[summary_id := memory_summary]> (memory_summaries mc);
          recent_memories := recent_memories mc;
          total_original_size := total_original_size mc;
          total_compressed_size := total_compressed_size mc;
          compression_count := compression_count mc |})
  end.

End Summarizer.

(** ** The module-level functions *)

Module Tool.


Section Functions.

Variable md5_hexdigest : string -> string.
Variable _extract_entities : string -> string -> list string.



(** [compress_memory]: the new value of [_memory_compressor] and the
    message. *)
Definition compress_memory (_memory_compressor : MemoryCompressor)
    (clock : Clock) (content memory_type : string)
    (context : Score.context_t) : MemoryCompressor * string :=
  let '(memory_id, mc) :=
    compress_memory md5_hexdigest _extract_entities _memory_compressor
      clock content memory_type context in
  (mc, "Memory compressed successfully. ID: " ++ memory_id).

End Functions.

End Tool.

(** ** Sequences of insertions *)

Record Request : Type := mkRequest {
  req_clock : Clock;
  req_content : string;
  req_type : string;
  req_context : Score.context_t
}.

(** The compressor after the requests are served in order. *)
Definition serve (md5_hexdigest : string -> string)
    (_extract_entities : string -> string -> list string)
    (mc : MemoryCompressor) (requests : list Request) : MemoryCompressor :=
  fold_left
    (fun mc r =>
       snd (compress_memory md5_hexdigest _extract_entities mc (req_clock r)
              (req_content r) (req_type r) (req_context r)))
    requests mc.

(** The number of entries of a kind. *)
Definition count_kind (kind : string) (l : list CompressedMemory) : Z :=
  Z.of_nat (List.length (filter (fun m => String.eqb (memory_type m) kind) l)).



(** The identifiers given to the requests, in order. *)
Definition request_ids (md5_hexdigest : string -> string)
    (requests : list Request) : list string :=
  map (fun r => _generate_memory_id md5_hexdigest (id_time (req_clock r))
                  (req_content r))
      requests.

(** The sum of the lengths of the strings of a list. *)
Definition total_length (l : list string) : nat :=
  fold_right (fun s n => String.length s + n) 0 l.

(** The count a distribution holds for a kind, 0 for an absent kind. *)
Definition count_in (kind : string) (distribution : Py.dict Z) : Z :=
  match Py.get kind distribution with Some n => n | None => 0%Z end.

(** The sum of the counts of a distribution. *)
Definition distribution_total (distribution : Py.dict Z) : Z :=
  fold_right Z.add 0%Z (Py.values distribution).

(** The entries found under the identifiers of a list, in its order. *)
Definition resolve (mc : MemoryCompressor) (memory_ids : list string)
  : list CompressedMemory :=
  flat_map (fun mid => match Py.get mid (compressed_memories mc) with
                       | Some memory => [memory]
                       | None => []
                       end) memory_ids.

(** ** Facts about strings *)

Section StringFacts.

Lemma string_length_app (s t : string) :
  String.length (s ++ t) = String.length s + String.length t.
Proof. induction s as [|a s IH]; simpl; [reflexivity | now rewrite IH]. Qed.

Lemma length_zero (s : string) : String.length s = 0 -> s = EmptyString.
Proof. destruct s; [reflexivity | discriminate]. Qed.

Lemma nonempty_length (s : string) :
  0 < String.length s -> s <> EmptyString.
Proof. intros H ->. simpl in H. lia. Qed.

Lemma join_cons2 (sep a b : string) (l : list string) :
  Str.join sep (a :: b :: l) = a ++ sep ++ Str.join sep (b :: l).
Proof. reflexivity. Qed.

Lemma join_length_ge (sep x : string) (l : list string) :
  In x l -> String.length x <= String.length (Str.join sep l).
Proof.
  induction l as [|a l IH]; intros Hin; [destruct Hin |].
  destruct l as [|b l].
  - destruct Hin as [-> | []]. simpl. lia.
  - rewrite join_cons2, !string_length_app.
    destruct Hin as [-> | Hin]; [lia |].
    specialize (IH Hin). lia.
Qed.

Lemma join_length_sep (sep a b : string) (l : list string) :
  String.length sep <= String.length (Str.join sep (a :: b :: l)).
Proof. rewrite join_cons2, !string_length_app. lia. Qed.

Lemma join_nonempty_mem (sep x : string) (l : list string) :
  In x l -> x <> EmptyString -> Str.join sep l <> EmptyString.
Proof.
  intros Hin Hx. apply nonempty_length.
  pose proof (join_length_ge sep x l Hin).
  destruct x; [congruence | simpl in *; lia].
Qed.

Lemma join_nonempty_two (sep : string) (l : list string) :
  sep <> EmptyString -> 2 <= List.length l -> Str.join sep l <> EmptyString.
Proof.
  intros Hsep Hlen. destruct l as [|a [|b l]]; simpl in Hlen; try lia.
  apply nonempty_length. pose proof (join_length_sep sep a b l).
  destruct sep; [congruence | simpl in *; lia].
Qed.

Lemma split_cons (c : ascii) (s : string) :
  exists h t, Str.split c s = h :: t.
Proof.
  induction s as [|a s (h & t & IH)]; simpl; [eauto |].
  destruct (Ascii.eqb a c); [eauto |]. rewrite IH. eauto.
Qed.

Lemma split_length (c : ascii) (s : string) :
  1 <= List.length (Str.split c s).
Proof. destruct (split_cons c s) as (h & t & ->). simpl. lia. Qed.

Lemma split_single (c : ascii) (s h : string) :
  Str.split c s = [h] -> h = s.
Proof.
  revert h. induction s as [|a s IH]; simpl; intros h H.
  - congruence.
  - destruct (Ascii.eqb a c).
    + destruct (split_cons c s) as (h' & t & E). rewrite E in H. discriminate.
    + destruct (Str.split c s) as [|h' t] eqn:E.
      * destruct (split_cons c s) as (? & ? & E'). congruence.
      * injection H as <- ->. now rewrite (IH h' eq_refl).
Qed.

Lemma filter_head_witness {A : Type} (f : A -> bool) (l : list A) :
  1 <= List.length (filter f l) ->
  exists x, In x (filter f l) /\ f x = true.
Proof.
  destruct (filter f l) as [|x r] eqn:E; simpl; [lia |].
  intros _. exists x. split; [now left |].
  assert (Hin : In x (filter f l)) by (rewrite E; now left).
  now apply filter_In in Hin.
Qed.

End StringFacts.

(** ** Non-empty output of the strategies *)

Section NonEmpty.

Lemma code_line_kept_nonempty (line : string) :
  Compress.code_line_kept line = true -> line <> EmptyString.
Proof. intros H ->. discriminate. Qed.

Lemma error_line_kept_nonempty (line : string) :
  Compress.error_line_kept line = true -> line <> EmptyString.
Proof. intros H ->. discriminate. Qed.

Lemma solution_line_kept_nonempty (line : string) :
  Compress.solution_line_kept line = true -> line <> EmptyString.
Proof. intros H ->. discriminate. Qed.

Lemma compress_conversation_nonempty (content : string) :
  content <> EmptyString ->
  Compress._compress_conversation content <> EmptyString.
Proof.
  intros Hne. unfold Compress._compress_conversation.
  destruct (10 <? List.length (Str.split "." content)) eqn:E.
  - apply join_nonempty_mem with (x := "[...]"); [| discriminate].
    apply in_or_app. right. now left.
  - destruct (split_cons "." content) as (h & t & Hs). rewrite Hs.
    destruct t as [|b t].
    + apply split_single in Hs. subst h. exact Hne.
    + apply join_nonempty_two; [discriminate | simpl; lia].
Qed.

Lemma compress_code_nonempty (code : string) :
  Compress._compress_code code <> EmptyString.
Proof.
  unfold Compress._compress_code.
  set (lines := Str.split Str.newline code).
  set (kept := filter Compress.code_line_kept (map Str.strip lines)).
  destruct (List.length kept * 2 <? List.length lines) eqn:E.
  - apply join_nonempty_mem
      with (x := Compress.code_header (List.length lines) (List.length kept)).
    + now left.
    + discriminate.
  - apply Nat.ltb_ge in E.
    pose proof (split_length Str.newline code) as Hl. fold lines in Hl.
    destruct (filter_head_witness Compress.code_line_kept (map Str.strip lines))
      as (x & Hin & Hx); [fold kept; lia |].
    apply join_nonempty_mem with (x := x); [exact Hin |].
    now apply code_line_kept_nonempty.
Qed.

Lemma compress_error_nonempty (error_content : string) :
  Compress._compress_error error_content <> EmptyString.
Proof.
  unfold Compress._compress_error.
  set (keys := Compress.error_key_lines error_content).
  destruct (20 <? List.length keys) eqn:E.
  - destruct (firstn 10 keys ++ [Compress.error_marker (List.length keys - 20)]
              ++ last_n 10 keys)%list as [|a r] eqn:El.
    + destruct (firstn 10 keys); discriminate.
    + rewrite <- El.
      apply join_nonempty_mem
        with (x := Compress.error_marker (List.length keys - 20)).
      * apply in_or_app. right. now left.
      * discriminate.
  - destruct keys as [|a r] eqn:Ek.
    + apply nonempty_length. rewrite string_length_app. simpl. lia.
    + apply join_nonempty_mem with (x := a); [now left |].
      apply error_line_kept_nonempty.
      assert (Hin : In a keys) by (rewrite Ek; now left).
      unfold keys, Compress.error_key_lines in Hin.
      now apply filter_In in Hin.
Qed.

Lemma compress_solution_nonempty (solution : string) :
  Compress._compress_solution solution <> EmptyString.
Proof.
  unfold Compress._compress_solution.
  set (lines := Str.split Str.newline solution).
  set (steps := filter Compress.solution_line_kept (map Str.strip lines)).
  pose proof (split_length Str.newline solution) as Hl. fold lines in Hl.
  destruct (List.length steps * 2 <? List.length lines) eqn:E.
  - apply join_nonempty_two; [discriminate |].
    rewrite !List.length_app. unfold last_n.
    rewrite length_firstn, length_skipn. lia.
  - apply Nat.ltb_ge in E.
    destruct (filter_head_witness Compress.solution_line_kept
                (map Str.strip lines)) as (x & Hin & Hx); [fold steps; lia |].
    apply join_nonempty_mem with (x := x); [exact Hin |].
    now apply solution_line_kept_nonempty.
Qed.

Lemma compress_generic_nonempty (content : string) :
  content <> EmptyString ->
  Compress._compress_generic content <> EmptyString.
Proof.
  intros Hne. unfold Compress._compress_generic.
  destruct (500 <? String.length content); [| exact Hne].
  apply nonempty_length. rewrite !string_length_app. simpl. lia.
Qed.

End NonEmpty.

(** ** Lines of a joined text *)

Section Lines.

Variable c : ascii.

Lemma free_of_app (s t : string) :
  free_of c (s ++ t) = free_of c s && free_of c t.
Proof.
  induction s as [|a s IH]; simpl; [reflexivity |].
  now rewrite IH, andb_assoc.
Qed.

Lemma split_free (s : string) :
  free_of c s = true -> Str.split c s = [s].
Proof.
  induction s as [|a s IH]; simpl; [reflexivity |].
  intros H. apply andb_prop in H as [Ha Hs].
  apply negb_true_iff in Ha. rewrite Ha, (IH Hs). reflexivity.
Qed.

Lemma split_app (s t : string) :
  free_of c s = true ->
  Str.split c (s ++ String c t) = s :: Str.split c t.
Proof.
  induction s as [|a s IH]; simpl.
  - intros _. now rewrite Ascii.eqb_refl.
  - intros H. apply andb_prop in H as [Ha Hs].
    apply negb_true_iff in Ha. rewrite Ha, (IH Hs). reflexivity.
Qed.

Lemma split_join (l : list string) :
  l <> [] ->
  Forall (fun s => free_of c s = true) l ->
  Str.split c (Str.join (String c EmptyString) l) = l.
Proof.
  induction l as [|a l IH]; [congruence |].
  intros _ Hall. inversion Hall as [|? ? Ha Hl]; subst.
  destruct l as [|b l].
  - simpl. now apply split_free.
  - rewrite join_cons2.
    change (String c EmptyString ++ Str.join (String c EmptyString) (b :: l))
      with (String c (Str.join (String c EmptyString) (b :: l))).
    rewrite split_app by exact Ha.
    f_equal. apply IH; [discriminate | exact Hl].
Qed.

Lemma split_parts_free (s : string) :
  Forall (fun p => free_of c p = true) (Str.split c s).
Proof.
  induction s as [|a s IH]; simpl.
  - repeat constructor.
  - destruct (Ascii.eqb a c) eqn:E.
    + constructor; [reflexivity | exact IH].
    + destruct (Str.split c s) as [|h t].
      * repeat constructor. simpl. now rewrite E.
      * inversion IH; subst. constructor; [| assumption].
        simpl. now rewrite E.
Qed.

Lemma lstrip_free (s : string) :
  free_of c s = true -> free_of c (Str.lstrip s) = true.
Proof.
  induction s as [|a s IH]; simpl; [reflexivity |].
  intros H. destruct (Char.is_space a); [| exact H].
  apply andb_prop in H as [_ Hs]. now apply IH.
Qed.

Lemma rstrip_free (s : string) :
  free_of c s = true -> free_of c (Str.rstrip s) = true.
Proof.
  induction s as [|a s IH]; simpl; [reflexivity |].
  intros H. apply andb_prop in H as [Ha Hs].
  destruct (Char.is_space a && Str.is_empty (Str.rstrip s)); [reflexivity |].
  simpl. now rewrite Ha, IH.
Qed.

Lemma strip_free (s : string) :
  free_of c s = true -> free_of c (Str.strip s) = true.
Proof. intros H. unfold Str.strip. now apply rstrip_free, lstrip_free. Qed.

End Lines.

Lemma uint_free_of_newline (d : Decimal.uint) :
  free_of Str.newline (NilEmpty.string_of_uint d) = true.
Proof. induction d; simpl; auto. Qed.

Lemma of_nat_free_of_newline (n : nat) :
  free_of Str.newline (Str.of_nat n) = true.
Proof.
  unfold Str.of_nat, NilZero.string_of_uint.
  destruct (Nat.to_uint n) eqn:E; try reflexivity;
    rewrite <- E; apply uint_free_of_newline.
Qed.

Lemma error_marker_free (n : nat) :
  free_of Str.newline (Compress.error_marker n) = true.
Proof.
  unfold Compress.error_marker.
  rewrite !free_of_app, of_nat_free_of_newline. reflexivity.
Qed.

Lemma error_key_lines_free (content : string) :
  Forall (fun s => free_of Str.newline s = true)
         (Compress.error_key_lines content).
Proof.
  unfold Compress.error_key_lines.
  apply Forall_forall. intros x Hin.
  apply filter_In in Hin as [Hin _].
  apply in_map_iff in Hin as (y & <- & Hy).
  apply strip_free.
  pose proof (split_parts_free Str.newline content) as Hall.
  rewrite Forall_forall in Hall. now apply Hall.
Qed.

Lemma in_firstn {A : Type} (n : nat) (l : list A) (x : A) :
  In x (firstn n l) -> In x l.
Proof.
  intros H. rewrite <- (firstn_skipn n l). apply in_or_app. now left.
Qed.

Lemma in_skipn {A : Type} (n : nat) (l : list A) (x : A) :
  In x (skipn n l) -> In x l.
Proof.
  intros H. rewrite <- (firstn_skipn n l). apply in_or_app. now right.
Qed.

Lemma filter_none {A : Type} (f : A -> bool) (l : list A) :
  Forall (fun x => f x = false) l -> filter f l = [].
Proof.
  induction 1 as [|x l Hx _ IH]; simpl; [reflexivity |]. now rewrite Hx.
Qed.

(** ** Compression: the results *)

(** C7. For every non-empty text and every kind, recognised or not, the
    compressed text is non-empty, and so is the compressed text of the
    entry the compression operation records. *)
Theorem compressed_nonempty
    (md5_hexdigest : string -> string)
    (_extract_entities : string -> string -> list string)
    (clock : Clock) (content memory_type : string)
    (context : Score.context_t) :
  content <> EmptyString ->
  Compress._compress_by_type content memory_type <> EmptyString
  /\ compressed_content
       (new_memory md5_hexdigest _extract_entities clock content memory_type
          context) <> EmptyString.
Proof.
  intros Hne.
  assert (H : Compress._compress_by_type content memory_type <> EmptyString).
  { unfold Compress._compress_by_type.
    destruct (String.eqb memory_type "conversation");
      [now apply compress_conversation_nonempty |].
    destruct (String.eqb memory_type "code"); [apply compress_code_nonempty |].
    destruct (String.eqb memory_type "error"); [apply compress_error_nonempty |].
    destruct (String.eqb memory_type "solution");
      [apply compress_solution_nonempty |].
    now apply compress_generic_nonempty. }
  split; exact H.
Qed.

Lemma compressed_nonempty_witness :
  "x" <> EmptyString
  /\ Compress._compress_by_type "x" "solution" <> EmptyString
  /\ compressed_content
       (new_memory (Examples.md5_const Examples.md5_of_hello)
          Examples.no_entities (Examples.clock_at Examples.noon) "x" "solution"
          None) <> EmptyString.
Proof.
  split; [discriminate |].
  apply (compressed_nonempty (Examples.md5_const Examples.md5_of_hello)
           Examples.no_entities (Examples.clock_at Examples.noon) "x"
           "solution" None).
  discriminate.
Defined.

(** C2, as the code has it. For every kind the entry made from the empty
    text has compression ratio 1; its compressed text is empty for the
    conversation kind and for every unrecognised kind, and it is the
    annotation line for code, the ellipsis for error and a single
    newline for solution. *)
Theorem empty_compression
    (md5_hexdigest : string -> string)
    (_extract_entities : string -> string -> list string)
    (clock : Clock) (memory_type : string) (context : Score.context_t) :
  let memory :=
    new_memory md5_hexdigest _extract_entities clock EmptyString memory_type
      context in
  compression_ratio memory = 1%Q
  /\ original_content memory = EmptyString
  /\ compressed_content memory = empty_image memory_type.
Proof.
  cbv zeta. split; [reflexivity |]. split; [reflexivity |].
  unfold new_memory, compressed_content, empty_image,
    Compress._compress_by_type.
  destruct (String.eqb memory_type "conversation"); [reflexivity |].
  destruct (String.eqb memory_type "code"); [reflexivity |].
  destruct (String.eqb memory_type "error"); [reflexivity |].
  destruct (String.eqb memory_type "solution"); reflexivity.
Qed.

(** C2 fails as stated: the entry made from the empty text under the
    kinds code, error and solution has a compressed text that differs
    from the empty original. *)
Lemma empty_compression_changes_text :
  let entry kind :=
    new_memory (Examples.md5_const Examples.md5_of_empty) Examples.no_entities
      (Examples.clock_at Examples.noon) EmptyString kind None in
  compressed_content (entry "code") <> original_content (entry "code")
  /\ compressed_content (entry "error") <> original_content (entry "error")
  /\ compressed_content (entry "solution")
     <> original_content (entry "solution").
Proof. cbv zeta. repeat split; discriminate. Qed.

(** C4, as the code has it. When no line of the text qualifies, the
    output of the error strategy is the first 500 characters of the raw
    text followed by three dots, whatever the length of the text. *)
Theorem error_fallback (error_content : string) :
  Forall (fun line => Compress.error_line_kept (Str.strip line) = false)
         (lines_of error_content) ->
  Compress._compress_error error_content
  = Str.take 500 error_content ++ "...".
Proof.
  intros Hnone. unfold Compress._compress_error.
  assert (E : Compress.error_key_lines error_content = []).
  { unfold Compress.error_key_lines. apply filter_none.
    apply Forall_map. exact Hnone. }
  rewrite E. reflexivity.
Qed.

Lemma error_fallback_witness :
  Forall (fun line => Compress.error_line_kept (Str.strip line) = false)
         (lines_of "abc")
  /\ Compress._compress_error "abc" = Str.take 500 "abc" ++ "...".
Proof.
  assert (H : Forall (fun line =>
                        Compress.error_line_kept (Str.strip line) = false)
                     (lines_of "abc")).
  { repeat constructor. }
  split; [exact H |]. apply (error_fallback "abc" H).
Defined.

(** C4 fails as stated: a short text without qualifying line is not
    returned unchanged, and a text of 1200 characters without qualifying
    line is cut to its first 500 characters and three dots, with nothing
    of its end. *)
Lemma error_fallback_is_not_head_and_tail :
  Compress.error_key_lines "abc" = []
  /\ Compress._compress_error "abc" = "abc..."
  /\ Compress._compress_error "abc" <> "abc"
  /\ Compress.error_key_lines Examples.long_plain = []
  /\ String.length Examples.long_plain = 1200
  /\ String.length (Compress._compress_error Examples.long_plain) = 503.
Proof. repeat split; try discriminate; vm_compute; reflexivity. Qed.

(** C5, as the code has it. Whenever more than 20 lines qualify, the
    output is the first 10 qualifying lines, one marker line with the
    number of omitted lines, and the last 10 qualifying lines: 21 lines
    in all, the marker included. *)
Theorem error_truncation (error_content : string) :
  let key_lines := Compress.error_key_lines error_content in
  let kept :=
    (firstn 10 key_lines
     ++ [Compress.error_marker (List.length key_lines - 20)]
     ++ last_n 10 key_lines)%list in
  20 < List.length key_lines ->
  Compress._compress_error error_content = Str.join Compress.nl kept
  /\ lines_of (Compress._compress_error error_content) = kept
  /\ List.length (firstn 10 key_lines) = 10
  /\ List.length (last_n 10 key_lines) = 10
  /\ List.length (lines_of (Compress._compress_error error_content)) = 21.
Proof.
  intros key_lines kept Hlen.
  assert (Hout : Compress._compress_error error_content
                 = Str.join Compress.nl kept).
  { unfold Compress._compress_error. fold key_lines.
    apply Nat.ltb_lt in Hlen. rewrite Hlen. fold kept.
    destruct kept as [|a r] eqn:E; [| reflexivity].
    subst kept. destruct (firstn 10 key_lines); discriminate. }
  assert (Hfree : Forall (fun s => free_of Str.newline s = true) kept).
  { pose proof (error_key_lines_free error_content) as Hk. fold key_lines in Hk.
    rewrite Forall_forall in Hk. apply Forall_forall. intros x Hin.
    unfold kept in Hin. apply in_app_or in Hin as [Hin | Hin].
    - apply Hk. eapply in_firstn; eauto.
    - apply in_app_or in Hin as [[<- | []] | Hin].
      + apply error_marker_free.
      + apply Hk. unfold last_n in Hin. eapply in_skipn; eauto. }
  assert (Hlines : lines_of (Compress._compress_error error_content) = kept).
  { rewrite Hout. unfold lines_of, Compress.nl.
    apply split_join; [| exact Hfree].
    unfold kept. destruct (firstn 10 key_lines); discriminate. }
  assert (H1 : List.length (firstn 10 key_lines) = 10)
    by (rewrite length_firstn; lia).
  assert (H2 : List.length (last_n 10 key_lines) = 10)
    by (unfold last_n; rewrite length_skipn; lia).
  repeat split; try assumption.
  rewrite Hlines. unfold kept. rewrite !List.length_app, H1, H2. reflexivity.
Qed.

Lemma error_truncation_witness :
  20 < List.length (Compress.error_key_lines Examples.traceback25)
  /\ List.length
       (lines_of (Compress._compress_error Examples.traceback25)) = 21.
Proof.
  assert (H : 20 < List.length (Compress.error_key_lines Examples.traceback25)).
  { vm_compute. lia. }
  split; [exact H |].
  apply (error_truncation Examples.traceback25 H).
Defined.

(** C5 fails as stated: the traceback of 25 lines, every one of which
    qualifies, is compressed to 21 lines, the marker included, not 22. *)
Lemma traceback25_has_21_lines :
  List.length (lines_of Examples.traceback25) = 25
  /\ Compress.error_key_lines Examples.traceback25
     = map Str.strip (lines_of Examples.traceback25)
  /\ List.length (lines_of (Compress._compress_error Examples.traceback25))
     = 21
  /\ List.length (lines_of (Compress._compress_error Examples.traceback25))
     <> 22.
Proof. vm_compute. repeat split; try reflexivity. discriminate. Qed.

(** ** The importance score *)

Section Importance.

Local Open Scope Q_scope.

Lemma of_len_nonneg (n : nat) : 0 <= Score.of_len n.
Proof. unfold Score.of_len, Qle. simpl. lia. Qed.

Lemma of_len_le (n m : nat) : (n <= m)%nat -> Score.of_len n <= Score.of_len m.
Proof. intros H. unfold Score.of_len, Qle. simpl. lia. Qed.

Lemma unit_min (x : Q) : 0 <= x -> 0 <= Qmin x 1 <= 1.
Proof.
  intros Hx. split.
  - apply Q.min_glb; [exact Hx | discriminate].
  - apply Q.le_min_r.
Qed.

Lemma length_factor_unit (text : string) :
  0 <= SpecSide.length_factor text <= 1.
Proof.
  apply unit_min. apply Qle_shift_div_l; [reflexivity |].
  rewrite Qmult_0_l. apply of_len_nonneg.
Qed.

Lemma keyword_fraction_unit (text : string) :
  0 <= SpecSide.keyword_fraction text <= 1.
Proof.
  unfold SpecSide.keyword_fraction. split.
  - apply Qle_shift_div_l; [reflexivity |].
    rewrite Qmult_0_l. apply of_len_nonneg.
  - apply Qle_shift_div_r; [reflexivity |].
    rewrite Qmult_1_l. apply (of_len_le _ 6). apply filter_length_le.
Qed.

Lemma indicator_score_nonneg (code : string) (pw : Re.regex * Q) :
  0 <= snd pw -> 0 <= Score.indicator_score code pw.
Proof.
  intros Hw. unfold Score.indicator_score.
  apply Q.min_glb; [| discriminate].
  apply Qmult_le_0_compat; [apply of_len_nonneg | exact Hw].
Qed.

Lemma fold_scores_nonneg (code : string) (table : list (Re.regex * Q)) :
  Forall (fun pw => 0 <= snd pw) table ->
  forall acc, 0 <= acc ->
  0 <= fold_left (fun acc pw => acc + Score.indicator_score code pw)
         table acc.
Proof.
  induction 1 as [|pw table Hw _ IH]; intros acc Hacc; simpl; [exact Hacc |].
  apply IH. pose proof (indicator_score_nonneg code pw Hw).
  apply Qle_trans with (0 + 0); [discriminate |].
  now apply Qplus_le_compat.
Qed.

Lemma complexity_unit (code : string) :
  0 <= Score._calculate_code_complexity code <= 1.
Proof.
  unfold Score._calculate_code_complexity. apply unit_min.
  apply fold_scores_nonneg; [| discriminate].
  unfold Score.complexity_indicators.
  repeat constructor; discriminate.
Qed.

Lemma relevance_of_key (context : Score.context_t) :
  Score.relevance_of context = SpecSide.relevance_key context.
Proof.
  destruct context as [c|]; simpl; [| reflexivity].
  case_bool_decide as E; [| reflexivity].
  subst c. now rewrite lookup_empty.
Qed.

Lemma keyword_hits_spec (text : string) :
  Score.of_len (Score.keyword_hits text)
  / Score.of_len (List.length Score.error_keywords)
  = SpecSide.keyword_fraction text.
Proof. reflexivity. Qed.

(** The score computed by the code is the sum worded by the
    specification. *)
Lemma calculate_importance_eq (content memory_type : string)
    (context : Score.context_t) :
  Score._calculate_importance content memory_type context
  == SpecSide.importance content memory_type context.
Proof.
  unfold Score._calculate_importance, SpecSide.importance.
  rewrite relevance_of_key, keyword_hits_spec.
  fold (SpecSide.length_factor content).
  generalize (SpecSide.length_factor content)
             (Qmin (SpecSide.keyword_fraction content) 1)
             (Score._calculate_code_complexity content).
  intros l k x.
  destruct (String.eqb memory_type "code");
    destruct (SpecSide.relevance_key context) as [r|];
    unfold Score.sum; cbn [fold_left app]; ring.
Qed.

Lemma importance_lower_bound (content memory_type : string)
    (context : Score.context_t) :
  (forall r, SpecSide.relevance_key context = Some r -> 0 <= r) ->
  0.1 <= Score._calculate_importance content memory_type context.
Proof.
  intros Hrel. rewrite calculate_importance_eq. unfold SpecSide.importance.
  pose proof (length_factor_unit content) as [Hl _].
  pose proof (keyword_fraction_unit content) as Hk.
  pose proof (unit_min _ (proj1 Hk)) as [Hm _].
  pose proof (complexity_unit content) as [Hc _].
  assert (Hr : 0 <= match SpecSide.relevance_key context with
                    | Some relevance => 0.2 * relevance
                    | None => 0
                    end).
  { destruct (SpecSide.relevance_key context) as [r|]; [| discriminate].
    apply Qmult_le_0_compat; [discriminate | now apply Hrel]. }
  assert (Hx : 0 <= (if String.eqb memory_type "code"
                     then 0.2 * Score._calculate_code_complexity content
                     else 0)).
  { destruct (String.eqb memory_type "code"); [| discriminate].
    apply Qmult_le_0_compat; [discriminate | exact Hc]. }
  assert (H1 : 0 <= 0.2 * SpecSide.length_factor content)
    by (apply Qmult_le_0_compat; [discriminate | exact Hl]).
  assert (H2 : 0 <= 0.3 * Qmin (SpecSide.keyword_fraction content) 1)
    by (apply Qmult_le_0_compat; [discriminate | exact Hm]).
  set (a := 0.2 * SpecSide.length_factor content) in *.
  set (b := 0.3 * Qmin (SpecSide.keyword_fraction content) 1) in *.
  set (c := if String.eqb memory_type "code" then _ else _) in *.
  set (d := match SpecSide.relevance_key context with
            | Some _ => _ | None => _ end) in *.
  apply Qle_trans with (0 + 0 + 0 + 0 + 0.1); [discriminate |].
  repeat apply Qplus_le_compat; try assumption. discriminate.
Qed.

End Importance.

(** C6, as the code has it. The importance score is the sum of the
    weighted factors that are present: 0.2 times the normalised length,
    0.3 times the capped keyword fraction, 0.2 times the code complexity
    for the kind code only, 0.2 times the relevance when the context has
    that key, and the constant 0.1.  The length factor, the keyword
    fraction and the complexity lie between 0 and 1 before they are
    weighted; the relevance enters as the caller gives it, without any
    clamping; and the sum itself is not capped. *)
Theorem importance_weighted_sum (content memory_type : string)
    (context : Score.context_t) :
  (Score._calculate_importance content memory_type context
   == SpecSide.importance content memory_type context)%Q
  /\ (0 <= SpecSide.length_factor content <= 1)%Q
  /\ (0 <= SpecSide.keyword_fraction content <= 1)%Q
  /\ (0 <= Qmin (SpecSide.keyword_fraction content) 1 <= 1)%Q
  /\ (0 <= Score._calculate_code_complexity content <= 1)%Q.
Proof.
  split; [apply calculate_importance_eq |].
  split; [apply length_factor_unit |].
  split; [apply keyword_fraction_unit |].
  split; [apply unit_min, keyword_fraction_unit | apply complexity_unit].
Qed.

(** C6 fails as stated: the relevance is not brought into the range from
    0 to 1 before it is weighted.  A relevance of 4 on the empty text
    contributes 0.8, for a score of 0.9, and a relevance of -1 makes the
    score negative. *)
Lemma relevance_is_not_normalized :
  SpecSide.relevance_key (Some {[ "relevance" := 4%Q ]}) = Some 4%Q
  /\ ~ (4 <= 1)%Q
  /\ (Score._calculate_importance EmptyString "generic"
        (Some {[ "relevance" := 4%Q ]}) == 0.9)%Q
  /\ SpecSide.relevance_key (Some {[ "relevance" := (-1)%Q ]}) = Some (-1)%Q
  /\ ~ (0 <= -1)%Q
  /\ (Score._calculate_importance EmptyString "generic"
        (Some {[ "relevance" := (-1)%Q ]}) < 0)%Q.
Proof.
  split; [simpl; apply lookup_singleton_eq |].
  split; [intros H; apply H; reflexivity |].
  split; [vm_compute; reflexivity |].
  split; [simpl; apply lookup_singleton_eq |].
  split; [intros H; apply H; reflexivity |].
  vm_compute. reflexivity.
Qed.

(** C10. When the context has no relevance key, or maps it to a value
    that is not negative, the importance score is at least 0.1, so the
    entry created has a strictly positive importance. *)
Theorem importance_at_least_placeholder
    (md5_hexdigest : string -> string)
    (_extract_entities : string -> string -> list string)
    (clock : Clock) (content memory_type : string)
    (context : Score.context_t) :
  (forall r, SpecSide.relevance_key context = Some r -> (0 <= r)%Q) ->
  (0.1 <= Score._calculate_importance content memory_type context)%Q
  /\ (0.1 <= importance_score
               (new_memory md5_hexdigest _extract_entities clock content
                  memory_type context))%Q
  /\ (0 < importance_score
            (new_memory md5_hexdigest _extract_entities clock content
               memory_type context))%Q.
Proof.
  intros Hrel.
  pose proof (importance_lower_bound content memory_type context Hrel) as H.
  split; [exact H |]. split; [exact H |].
  apply Qlt_le_trans with (0.1)%Q; [reflexivity | exact H].
Qed.

Lemma importance_at_least_placeholder_witness :
  (forall r,
     SpecSide.relevance_key (Some {[ "relevance" := 0.5%Q ]}) = Some r ->
     (0 <= r)%Q)
  /\ (0.1 <= Score._calculate_importance "an error and a bug" "code"
               (Some {[ "relevance" := 0.5%Q ]}))%Q.
Proof.
  assert (H : forall r,
             SpecSide.relevance_key (Some {[ "relevance" := 0.5%Q ]}) = Some r ->
             (0 <= r)%Q).
  { intros r Hr. simpl in Hr. rewrite lookup_singleton_eq in Hr.
    injection Hr as <-. discriminate. }
  split; [exact H |].
  apply (importance_at_least_placeholder
           (Examples.md5_const Examples.md5_of_hello) Examples.no_entities
           (Examples.clock_at Examples.noon) "an error and a bug" "code"
           (Some {[ "relevance" := 0.5%Q ]}) H).
Defined.

(** ** Facts about the sort and the dictionaries *)

Section SortFacts.

Context {A : Type}.
Variable lt : A -> A -> bool.
Variable le : A -> A -> Prop.
Hypothesis le_trans : forall a b c, le a b -> le b c -> le a c.
Hypothesis lt_le : forall a b, lt a b = true -> le a b.
Hypothesis nlt_le : forall a b, lt a b = false -> le b a.

Lemma insert_sorted_perm (x : A) (l : list A) :
  Permutation (Py.insert_sorted lt x l) (x :: l).
Proof using Type.
  induction l as [|y l IH]; simpl; [reflexivity |].
  destruct (lt y x); [| reflexivity].
  rewrite IH. apply perm_swap.
Qed.

Lemma sort_perm (l : list A) : Permutation (Py.sort lt l) l.
Proof using Type.
  induction l as [|x l IH]; simpl; [reflexivity |].
  fold (Py.sort lt l). rewrite insert_sorted_perm. now constructor.
Qed.

Lemma insert_sorted_sorted (x : A) (l : list A) :
  StronglySorted le l -> StronglySorted le (Py.insert_sorted lt x l).
Proof using le_trans lt_le nlt_le.
  induction 1 as [|y l Hs IH Hy]; simpl.
  - repeat constructor.
  - destruct (lt y x) eqn:E.
    + constructor; [exact IH |].
      rewrite insert_sorted_perm.
      constructor; [now apply lt_le | exact Hy].
    + constructor; [now constructor |].
      apply nlt_le in E. constructor; [exact E |].
      rewrite Forall_forall in Hy |- *. intros z Hz.
      apply le_trans with y; [exact E | now apply Hy].
Qed.

Lemma sort_sorted (l : list A) : StronglySorted le (Py.sort lt l).
Proof using le_trans lt_le nlt_le.
  induction l as [|x l IH]; simpl; [constructor |].
  fold (Py.sort lt l). now apply insert_sorted_sorted.
Qed.

Lemma sorted_app_le (l1 l2 : list A) :
  StronglySorted le (l1 ++ l2) ->
  forall a b, In a l1 -> In b l2 -> le a b.
Proof using Type.
  induction l1 as [|x l1 IH]; simpl; intros Hs a b Ha Hb; [destruct Ha |].
  inversion Hs as [|? ? Hs' Hall]; subst.
  destruct Ha as [<- | Ha].
  - rewrite Forall_forall in Hall. apply Hall, in_or_app. now right.
  - now apply IH.
Qed.

Lemma sorted_firstn (n : nat) (l : list A) :
  StronglySorted le l -> StronglySorted le (firstn n l).
Proof using Type.
  revert n. induction l as [|x l IH]; intros n Hs.
  - now rewrite firstn_nil.
  - destruct n as [|n]; simpl; [constructor |].
    inversion Hs as [|? ? Hs' Hall]; subst.
    constructor; [now apply IH |].
    rewrite Forall_forall in Hall |- *. intros z Hz.
    apply Hall. eapply in_firstn; eauto.
Qed.

End SortFacts.

Section DictFacts.

Context {V : Type}.
Implicit Types (d : Py.dict V) (k : string) (v : V).

Lemma get_in d k v : Py.get k d = Some v -> In (k, v) d.
Proof.
  induction d as [|[k' v'] d IH]; simpl; [discriminate |].
  destruct (String.eqb_spec k k') as [-> | Hne].
  - intros [= ->]. now left.
  - intros H. right. now apply IH.
Qed.

Lemma in_get d k v : Py.wf d -> In (k, v) d -> Py.get k d = Some v.
Proof.
  unfold Py.wf, Py.keys.
  induction d as [|[k' v'] d IH]; simpl; intros Hwf Hin; [destruct Hin |].
  inversion Hwf as [|? ? Hnotin Hwf']; subst.
  destruct (String.eqb_spec k k') as [-> | Hne].
  - destruct Hin as [[= ->] | Hin]; [reflexivity |].
    exfalso. apply Hnotin. apply in_map_iff. now exists (k', v).
  - destruct Hin as [[= -> ->] | Hin]; [congruence |]. now apply IH.
Qed.

Lemma key_get d k : In k (Py.keys d) -> exists v, Py.get k d = Some v.
Proof.
  unfold Py.keys.
  induction d as [|[k' v'] d IH]; simpl; intros Hin; [destruct Hin |].
  destruct (String.eqb_spec k k') as [-> | Hne]; [eauto |].
  destruct Hin as [-> | Hin]; [congruence | now apply IH].
Qed.

Lemma del_perm d k v :
  Py.get k d = Some v -> Permutation d ((k, v) :: Py.del k d).
Proof.
  induction d as [|[k' v'] d IH]; simpl; [discriminate |].
  destruct (String.eqb_spec k k') as [-> | Hne].
  - intros [= ->]. reflexivity.
  - intros H. rewrite (IH H) at 1. apply perm_swap.
Qed.

Lemma del_in d k (p : string * V) : In p (Py.del k d) -> In p d.
Proof.
  induction d as [|[k0 v0] d IH]; simpl; [tauto |].
  destruct (String.eqb k k0); simpl; [tauto |].
  intros [<- | H]; [now left | right; now apply IH].
Qed.

Lemma del_key_in d k k' : In k' (Py.keys (Py.del k d)) -> In k' (Py.keys d).
Proof.
  unfold Py.keys.
  induction d as [|[k0 v0] d IH]; simpl; [tauto |].
  destruct (String.eqb k k0); simpl; [tauto |].
  intros [-> | H]; [now left | right; now apply IH].
Qed.

Lemma del_wf d k : Py.wf d -> Py.wf (Py.del k d).
Proof.
  unfold Py.wf.
  induction d as [|[k0 v0] d IH]; simpl; intros Hwf; [constructor |].
  inversion Hwf as [|? ? Hnotin Hwf']; subst.
  destruct (String.eqb k k0); [exact Hwf' |].
  simpl. constructor; [| now apply IH].
  intros Hin. apply Hnotin. now apply (del_key_in d k).
Qed.

Lemma get_del_ne d k k' : k <> k' -> Py.get k' (Py.del k d) = Py.get k' d.
Proof.
  intros Hne.
  induction d as [|[k0 v0] d IH]; simpl; [reflexivity |].
  destruct (String.eqb_spec k k0) as [-> | Hk].
  - destruct (String.eqb_spec k' k0) as [-> | _]; [congruence | reflexivity].
  - simpl. now rewrite IH.
Qed.

Lemma del_key_ne d k k' :
  k <> k' -> In k' (Py.keys d) -> In k' (Py.keys (Py.del k d)).
Proof.
  intros Hne Hin. apply key_get in Hin as [v Hv].
  rewrite <- (get_del_ne d k k' Hne) in Hv.
  apply get_in in Hv. unfold Py.keys. apply in_map_iff. now exists (k', v).
Qed.

Lemma set_key_in d k v k' :
  In k' (Py.keys (Py.set k v d)) -> k' = k \/ In k' (Py.keys d).
Proof.
  unfold Py.keys.
  induction d as [|[k0 v0] d IH]; simpl.
  - intros [<- | []]. now left.
  - destruct (String.eqb_spec k k0) as [-> | Hne]; simpl.
    + intros [<- | H]; [now left | right; now right].
    + intros [<- | H]; [right; now left |].
      destruct (IH H) as [-> | H']; [now left | right; now right].
Qed.

Lemma set_wf d k v : Py.wf d -> Py.wf (Py.set k v d).
Proof.
  unfold Py.wf.
  induction d as [|[k0 v0] d IH]; simpl; intros Hwf.
  - repeat constructor. intros [].
  - inversion Hwf as [|? ? Hnotin Hwf']; subst.
    destruct (String.eqb_spec k k0) as [-> | Hne]; simpl.
    + now constructor.
    + constructor; [| now apply IH].
      intros Hin. apply set_key_in in Hin as [-> | Hin]; [congruence | auto].
Qed.

End DictFacts.

(** ** Search *)

Section SearchFacts.

Local Open Scope Q_scope.

Lemma Qltb_lt (a b : Q) : Qltb a b = true <-> a < b.
Proof.
  unfold Qltb. rewrite negb_true_iff. split.
  - intros H. apply Qnot_le_lt. intros Hle.
    apply Qle_bool_iff in Hle. congruence.
  - intros H. destruct (Qle_bool b a) eqn:E; [| reflexivity].
    apply Qle_bool_iff in E. exfalso. now apply (Qlt_not_le a b).
Qed.

Lemma Qltb_ge (a b : Q) : Qltb a b = false -> b <= a.
Proof.
  unfold Qltb. rewrite negb_false_iff. apply Qle_bool_iff.
Qed.

Lemma ranks_before_trans (a b c : Q * CompressedMemory) :
  ranks_before a b -> ranks_before b c -> ranks_before a c.
Proof. unfold ranks_before. intros H1 H2. now apply Qle_trans with (fst b). Qed.

Lemma score_desc_ranks (a b : Q * CompressedMemory) :
  score_desc a b = true -> ranks_before a b.
Proof.
  unfold score_desc, ranks_before. intros H.
  apply Qltb_lt in H. now apply Qlt_le_weak.
Qed.

Lemma score_desc_ranks_not (a b : Q * CompressedMemory) :
  score_desc a b = false -> ranks_before b a.
Proof. unfold score_desc, ranks_before. apply Qltb_ge. Qed.

Lemma scored_results_snd (query : string) (wanted : option string)
    (mc : MemoryCompressor) :
  map snd (scored_results query wanted mc) = retained query wanted mc.
Proof.
  unfold scored_results, retained.
  induction (Py.values (compressed_memories mc)) as [|m l IH];
    simpl; [reflexivity |].
  destruct (type_filtered wanted m); simpl; [exact IH |].
  destruct (Qltb 0 (search_score (Str.lower query) m)); simpl;
    [now rewrite IH | exact IH].
Qed.

Lemma scored_results_fst (query : string) (wanted : option string)
    (mc : MemoryCompressor) :
  Forall (fun p => fst p = search_score (Str.lower query) (snd p))
         (scored_results query wanted mc).
Proof.
  unfold scored_results.
  induction (Py.values (compressed_memories mc)) as [|m l IH];
    simpl; [constructor |].
  destruct (type_filtered wanted m); simpl; [exact IH |].
  destruct (Qltb 0 (search_score (Str.lower query) m)); simpl;
    [now constructor | exact IH].
Qed.

Lemma sorted_map_snd (q : string) (l : list (Q * CompressedMemory)) :
  Forall (fun p => fst p = search_score q (snd p)) l ->
  StronglySorted ranks_before l ->
  StronglySorted (fun a b => search_score q b <= search_score q a)
                 (map snd l).
Proof.
  intros Hfst Hs. induction Hs as [|p l Hs IH Hall]; simpl; [constructor |].
  inversion Hfst as [|? ? Hp Hl]; subst.
  constructor; [now apply IH |].
  rewrite Forall_forall in Hall, Hl |- *.
  intros m Hm. apply in_map_iff in Hm as (p' & <- & Hin).
  rewrite <- Hp, <- (Hl p' Hin). now apply Hall.
Qed.

Lemma retained_spec (query : string) (wanted : option string)
    (mc : MemoryCompressor) (m : CompressedMemory) :
  In m (retained query wanted mc)
  <-> In m (Py.values (compressed_memories mc))
      /\ type_filtered wanted m = false
      /\ 0 < search_score (Str.lower query) m.
Proof.
  unfold retained. rewrite filter_In, andb_true_iff, negb_true_iff, Qltb_lt.
  tauto.
Qed.

End SearchFacts.

(** C8, as the code has it. For every query, kind filter and limit the
    search keeps exactly the entries that pass the kind filter and whose
    total score is greater than 0, ranks them by non-increasing score,
    and returns the ranking cut as [results[:limit]] cuts it: its first
    [limit] entries, so at most [limit] of them, when the limit is not
    negative, and the ranking without its last [-limit] entries when
    the limit is negative. *)
Theorem search_ranked (mc : MemoryCompressor) (query : string)
    (wanted : option string) (limit : Z) :
  let score := search_score (Str.lower query) in
  exists ranked : list CompressedMemory,
    Permutation ranked (retained query wanted mc)
    /\ (forall m, In m ranked
                  <-> In m (Py.values (compressed_memories mc))
                      /\ type_filtered wanted m = false
                      /\ (0 < score m)%Q)
    /\ StronglySorted (fun a b => (score b <= score a)%Q) ranked
    /\ search_memories mc query wanted limit
       = firstn (if (limit <? 0)%Z
                 then Z.to_nat (Z.of_nat (List.length ranked) + limit)
                 else Z.to_nat limit) ranked
    /\ StronglySorted (fun a b => (score b <= score a)%Q)
                      (search_memories mc query wanted limit)
    /\ ((0 <= limit)%Z ->
        (Z.of_nat (List.length (search_memories mc query wanted limit))
         <= limit)%Z).
Proof.
  intros score.
  set (results := scored_results query wanted mc).
  set (sorted := Py.sort score_desc results).
  assert (Hperm : Permutation sorted results) by apply sort_perm.
  assert (Hsorted : StronglySorted ranks_before sorted).
  { apply sort_sorted.
    - apply ranks_before_trans.
    - apply score_desc_ranks.
    - apply score_desc_ranks_not. }
  assert (Hfst : Forall (fun p => fst p = score (snd p)) sorted).
  { rewrite Hperm. apply scored_results_fst. }
  assert (Hranked : StronglySorted (fun a b => (score b <= score a)%Q)
                                   (map snd sorted))
    by now apply sorted_map_snd.
  assert (Hout : search_memories mc query wanted limit
                 = firstn (if (limit <? 0)%Z
                           then Z.to_nat
                                  (Z.of_nat (List.length (map snd sorted))
                                   + limit)
                           else Z.to_nat limit) (map snd sorted)).
  { unfold search_memories, Py.slice_to. fold results. fold sorted.
    rewrite length_map. destruct (limit <? 0)%Z; now rewrite firstn_map. }
  assert (Hp : Permutation (map snd sorted) (retained query wanted mc)).
  { rewrite <- scored_results_snd. now apply Permutation_map. }
  exists (map snd sorted).
  split; [exact Hp |].
  split.
  { intros m. unfold score. rewrite <- retained_spec. split; intros H.
    - now apply (Permutation_in m Hp).
    - now apply (Permutation_in m (Permutation_sym Hp)). }
  split; [exact Hranked |].
  split; [exact Hout |].
  split.
  - rewrite Hout. now apply sorted_firstn.
  - intros Hlimit. rewrite Hout.
    assert (E : (limit <? 0)%Z = false) by (apply Z.ltb_ge; lia).
    rewrite E.
    pose proof (firstn_le_length (Z.to_nat limit) (map snd sorted)).
    lia.
Qed.

(** C8 fails as stated: a negative limit does not bound the number of
    results.  In the store of two entries that both hold the word
    [note], the search for it with limit -1 returns one entry, which is
    more than -1. *)
Lemma search_negative_limit_returns_entries :
  List.length (retained "note" None Examples.full_store) = 2
  /\ List.length (search_memories Examples.full_store "note" None (-1)) = 1
  /\ ~ (Z.of_nat
          (List.length (search_memories Examples.full_store "note" None (-1)))
        <= -1)%Z.
Proof.
  split; [vm_compute; reflexivity |].
  split; [vm_compute; reflexivity |].
  vm_compute. intros H. now apply H.
Qed.

(** ** Eviction *)

Section EvictionFacts.

Local Open Scope Q_scope.

Lemma scores_le_trans (a b c : Q * string) :
  scores_le a b -> scores_le b c -> scores_le a c.
Proof. unfold scores_le. intros H1 H2. now apply Qle_trans with (fst b). Qed.

Lemma pair_lt_scores (a b : Q * string) :
  pair_lt a b = true -> scores_le a b.
Proof.
  unfold pair_lt, scores_le.
  destruct (Qeq_bool (fst a) (fst b)) eqn:E; intros H.
  - apply Qeq_bool_iff in E. rewrite E. apply Qle_refl.
  - apply Qltb_lt in H. now apply Qlt_le_weak.
Qed.

Lemma pair_lt_scores_not (a b : Q * string) :
  pair_lt a b = false -> scores_le b a.
Proof.
  unfold pair_lt, scores_le.
  destruct (Qeq_bool (fst a) (fst b)) eqn:E; intros H.
  - apply Qeq_bool_iff in E. rewrite E. apply Qle_refl.
  - now apply Qltb_ge.
Qed.

Lemma sorted_scores (l : list (Q * string)) :
  StronglySorted scores_le (Py.sort pair_lt l).
Proof.
  apply sort_sorted.
  - apply scores_le_trans.
  - apply pair_lt_scores.
  - apply pair_lt_scores_not.
Qed.

End EvictionFacts.

Section RemovalLoop.

Lemma remove_memory_present (mc : MemoryCompressor) (id : string)
    (memory : CompressedMemory) :
  Py.get id (compressed_memories mc) = Some memory ->
  compressed_memories (remove_memory mc id)
  = Py.del id (compressed_memories mc)
  /\ total_original_size (remove_memory mc id)
     = (total_original_size mc - len (original_content memory))%Z
  /\ total_compressed_size (remove_memory mc id)
     = (total_compressed_size mc - len (compressed_content memory))%Z
  /\ max_memory_size (remove_memory mc id) = max_memory_size mc.
Proof. intros H. unfold remove_memory. rewrite H. simpl. tauto. Qed.

(** The removal loop over distinct identifiers of present entries
    takes exactly these entries out and subtracts their lengths. *)
Lemma removal_loop (ids : list string) :
  forall mc : MemoryCompressor,
    Py.wf (compressed_memories mc) ->
    NoDup ids ->
    incl ids (Py.keys (compressed_memories mc)) ->
    let mc' := fold_left remove_memory ids mc in
    exists evicted : list CompressedMemory,
      Forall2 (fun id e => Py.get id (compressed_memories mc) = Some e)
              ids evicted
      /\ Permutation (compressed_memories mc)
                     (combine ids evicted ++ compressed_memories mc')
      /\ total_original_size mc'
         = (total_original_size mc - original_total evicted)%Z
      /\ total_compressed_size mc'
         = (total_compressed_size mc - compressed_total evicted)%Z
      /\ max_memory_size mc' = max_memory_size mc.
Proof.
  induction ids as [|id ids IH]; intros mc Hwf Hnd Hincl; cbv zeta.
  - exists []. simpl.
    split; [constructor |]. split; [reflexivity |]. repeat split; lia.
  - inversion Hnd as [|? ? Hnotin Hnd']; subst.
    destruct (key_get (compressed_memories mc) id) as [e He];
      [apply Hincl; now left |].
    destruct (remove_memory_present mc id e He) as (Hd & Ho & Hc & Hm).
    set (mc1 := remove_memory mc id) in *.
    assert (Hwf1 : Py.wf (compressed_memories mc1))
      by (rewrite Hd; now apply del_wf).
    assert (Hincl1 : incl ids (Py.keys (compressed_memories mc1))).
    { intros k Hk. rewrite Hd. apply del_key_ne.
      - intros ->. contradiction.
      - apply Hincl. now right. }
    destruct (IH mc1 Hwf1 Hnd' Hincl1) as (ev & Hf & Hp & Ho' & Hc' & Hm').
    exists (e :: ev). simpl fold_left. fold mc1.
    split.
    { constructor; [exact He |].
      eapply Forall2_impl; [| exact Hf].
      intros k m Hk. simpl in Hk. rewrite Hd in Hk.
      apply in_get; [exact Hwf |].
      apply get_in in Hk. now apply (del_in _ id). }
    split.
    { rewrite (del_perm _ _ _ He). simpl. constructor.
      rewrite <- Hd. exact Hp. }
    simpl. rewrite Ho', Hc', Hm', Ho, Hc, Hm. repeat split; lia.
Qed.

End RemovalLoop.

Section ListFacts.

Context {A B : Type}.

Lemma nodup_app_disjoint (l1 l2 : list A) (x : A) :
  NoDup (l1 ++ l2) -> In x l1 -> In x l2 -> False.
Proof.
  induction l1 as [|a l1 IH]; simpl; intros Hnd H1 H2; [destruct H1 |].
  inversion Hnd as [|? ? Hnotin Hnd']; subst.
  destruct H1 as [-> | H1].
  - apply Hnotin, in_or_app. now right.
  - now apply IH.
Qed.

Lemma forall2_in_r (R : A -> B -> Prop) (l1 : list A) (l2 : list B) (y : B) :
  Forall2 R l1 l2 -> In y l2 -> exists x, In x l1 /\ R x y.
Proof.
  induction 1 as [|a b l1 l2 Hab _ IH]; simpl; intros Hin; [destruct Hin |].
  destruct Hin as [<- | Hin].
  - exists a. split; [now left | exact Hab].
  - destruct (IH Hin) as (x & Hx & Hr). exists x. split; [now right | exact Hr].
Qed.

Lemma forall2_combine (R : A -> B -> Prop) (l1 : list A) (l2 : list B) :
  Forall2 R l1 l2 ->
  map fst (combine l1 l2) = l1 /\ map snd (combine l1 l2) = l2.
Proof.
  induction 1 as [|a b l1 l2 _ _ [IH1 IH2]]; simpl; [split; reflexivity |].
  now rewrite IH1, IH2.
Qed.

End ListFacts.

Section Cleanup.

Variable current_time : Q.
Variable mc : MemoryCompressor.

Hypothesis store_wf : Py.wf (compressed_memories mc).
Hypothesis over_capacity : (max_memory_size mc < Z.of_nat (size mc))%Z.

Let entries := compressed_memories mc.
Let sorted := Py.sort pair_lt (memories_with_scores current_time mc).
Let excess := Z.to_nat (Z.of_nat (size mc) - max_memory_size mc).

Lemma scores_keys :
  map snd (memories_with_scores current_time mc) = Py.keys entries.
Proof using Type.
  unfold memories_with_scores, Py.keys. rewrite map_map. reflexivity.
Qed.

Lemma sorted_perm_scores :
  Permutation sorted (memories_with_scores current_time mc).
Proof using Type. apply sort_perm. Qed.

Lemma sorted_keys : Permutation (map snd sorted) (Py.keys entries).
Proof using Type.
  rewrite <- scores_keys. apply Permutation_map, sorted_perm_scores.
Qed.

Lemma sorted_length : List.length sorted = size mc.
Proof using Type.
  rewrite (Permutation_length sorted_perm_scores).
  unfold memories_with_scores. now rewrite length_map.
Qed.

Lemma to_evict_prefix :
  to_evict current_time mc = map snd (firstn excess sorted).
Proof using over_capacity.
  unfold to_evict, Py.slice_to.
  assert (E : (Z.of_nat (size mc) - max_memory_size mc <? 0)%Z = false)
    by (apply Z.ltb_ge; lia).
  rewrite E. reflexivity.
Qed.

Lemma to_evict_length :
  List.length (to_evict current_time mc) = Nat.min excess (size mc).
Proof using over_capacity.
  rewrite to_evict_prefix, length_map, length_firstn, sorted_length.
  reflexivity.
Qed.

Lemma to_evict_nodup : NoDup (to_evict current_time mc).
Proof using over_capacity store_wf.
  rewrite to_evict_prefix, <- firstn_map.
  apply (NoDup_app_remove_r _ (skipn excess (map snd sorted))).
  rewrite firstn_skipn.
  apply (Permutation_NoDup (Permutation_sym sorted_keys)). exact store_wf.
Qed.

Lemma to_evict_present :
  incl (to_evict current_time mc) (Py.keys entries).
Proof using over_capacity.
  intros k Hk. rewrite to_evict_prefix, <- firstn_map in Hk.
  apply in_firstn in Hk. now apply (Permutation_in k sorted_keys).
Qed.

(** An entry of the store and its place in the sorted scores. *)
Lemma entry_scored (k : string) (m : CompressedMemory) :
  In (k, m) entries -> In (combined_score current_time m, k) sorted.
Proof using Type.
  intros Hin. apply (Permutation_in _ (Permutation_sym sorted_perm_scores)).
  unfold memories_with_scores. apply in_map_iff. now exists (k, m).
Qed.

Lemma scored_entry (p : Q * string) :
  In p sorted ->
  exists m, In (snd p, m) entries /\ fst p = combined_score current_time m.
Proof using Type.
  intros Hin. apply (Permutation_in _ sorted_perm_scores) in Hin.
  unfold memories_with_scores in Hin.
  apply in_map_iff in Hin as ([k m] & <- & Hkm). now exists m.
Qed.

(** What the eviction leaves: [max_memory_size] entries, or none when
    that capacity is negative, the evicted ones scoring no higher than
    any survivor, and the totals lowered by the lengths of the evicted
    texts. *)
Lemma cleanup_spec_any :
  let mc' := _cleanup_old_memories current_time mc in
  Z.of_nat (size mc') = Z.max 0 (max_memory_size mc)
  /\ max_memory_size mc' = max_memory_size mc
  /\ exists evicted : list CompressedMemory,
       Permutation (Py.values entries)
                   (evicted ++ Py.values (compressed_memories mc'))
       /\ List.length evicted = Nat.min excess (size mc)
       /\ (forall e s,
             In e evicted -> In s (Py.values (compressed_memories mc')) ->
             (combined_score current_time e
              <= combined_score current_time s)%Q)
       /\ total_original_size mc'
          = (total_original_size mc - original_total evicted)%Z
       /\ total_compressed_size mc'
          = (total_compressed_size mc - compressed_total evicted)%Z.
Proof using store_wf over_capacity.
  cbv zeta. unfold _cleanup_old_memories.
  assert (E : (Z.of_nat (size mc) <=? max_memory_size mc)%Z = false)
    by (apply Z.leb_gt; lia).
  rewrite E.
  destruct (removal_loop (to_evict current_time mc) mc store_wf
              to_evict_nodup to_evict_present)
    as (evicted & Hf & Hp & Ho & Hc & Hm).
  set (mc' := fold_left remove_memory (to_evict current_time mc) mc) in *.
  destruct (forall2_combine _ _ _ Hf) as [Hfst Hsnd].
  pose proof (Forall2_length Hf) as Hlen. rewrite to_evict_length in Hlen.
  assert (Hsize : List.length entries
                  = Nat.min excess (size mc)
                    + List.length (compressed_memories mc')).
  { unfold entries. rewrite (Permutation_length Hp), List.length_app.
    rewrite <- (length_map fst), Hfst, to_evict_length. reflexivity. }
  split.
  { unfold size at 1. unfold excess, size in Hsize.
    unfold size in over_capacity. fold entries in over_capacity, Hsize.
    lia. }
  split; [exact Hm |].
  exists evicted.
  split.
  { unfold Py.values. fold entries in Hp. rewrite Hp, map_app, Hsnd.
    reflexivity. }
  split; [now symmetry |].
  split; [| split; [exact Ho | exact Hc]].
  intros e s He Hs.
  destruct (forall2_in_r _ _ _ _ Hf He) as (k & Hk & Hget).
  rewrite to_evict_prefix in Hk.
  apply in_map_iff in Hk as (p & Hpk & Hp1).
  destruct (scored_entry p (in_firstn _ _ _ Hp1)) as (m & Hm1 & Hm2).
  rewrite Hpk in Hm1. apply (in_get _ _ _ store_wf) in Hm1.
  unfold entries in Hget, Hm1.
  assert (m = e) by congruence. subst m.
  apply in_map_iff in Hs as ([k' s'] & Hs' & Hin'). simpl in Hs'. subst s'.
  assert (Hin : In (k', s) entries).
  { apply (Permutation_in _ (Permutation_sym Hp)), in_or_app. now right. }
  pose proof (entry_scored k' s Hin) as Hq.
  rewrite <- (firstn_skipn excess sorted) in Hq.
  apply in_app_or in Hq as [Hq | Hq].
  - exfalso.
    assert (Hnd : NoDup (to_evict current_time mc
                         ++ Py.keys (compressed_memories mc'))).
    { rewrite <- Hfst at 1. unfold Py.keys. rewrite <- map_app.
      apply (Permutation_NoDup (l := Py.keys entries)); [| exact store_wf].
      unfold Py.keys. apply Permutation_map. exact Hp. }
    apply (nodup_app_disjoint _ _ k' Hnd).
    + rewrite to_evict_prefix. apply in_map_iff.
      now exists (combined_score current_time s, k').
    + unfold Py.keys. apply in_map_iff. now exists (k', s).
  - pose proof (sorted_scores (memories_with_scores current_time mc)) as Hs.
    fold sorted in Hs. rewrite <- (firstn_skipn excess sorted) in Hs.
    pose proof (sorted_app_le scores_le _ _ Hs p
                  (combined_score current_time s, k') Hp1 Hq) as Hle.
    unfold scores_le in Hle. simpl in Hle. now rewrite <- Hm2.
Qed.

End Cleanup.

(** The eviction under a capacity that is not negative. *)
Lemma cleanup_spec (current_time : Q) (mc : MemoryCompressor) :
  Py.wf (compressed_memories mc) ->
  (0 <= max_memory_size mc)%Z ->
  (max_memory_size mc < Z.of_nat (size mc))%Z ->
  let mc' := _cleanup_old_memories current_time mc in
  Z.of_nat (size mc') = max_memory_size mc
  /\ max_memory_size mc' = max_memory_size mc
  /\ exists evicted : list CompressedMemory,
       Permutation (Py.values (compressed_memories mc))
                   (evicted ++ Py.values (compressed_memories mc'))
       /\ List.length evicted
          = Z.to_nat (Z.of_nat (size mc) - max_memory_size mc)
       /\ (forall e s,
             In e evicted -> In s (Py.values (compressed_memories mc')) ->
             (combined_score current_time e
              <= combined_score current_time s)%Q)
       /\ total_original_size mc'
          = (total_original_size mc - original_total evicted)%Z
       /\ total_compressed_size mc'
          = (total_compressed_size mc - compressed_total evicted)%Z.
Proof.
  intros Hwf Hcap Hover.
  destruct (cleanup_spec_any current_time mc Hwf Hover)
    as (Hsize & Hmax & evicted & Hp & Hlen & Hdom & Ho & Hc).
  cbv zeta. split; [lia |]. split; [exact Hmax |].
  exists evicted. split; [exact Hp |]. split; [lia |].
  split; [exact Hdom |]. split; [exact Ho | exact Hc].
Qed.

Ltac solve_nodup :=
  repeat (constructor; [simpl; intuition discriminate |]); constructor.

(** C3, as the code has it. When an insertion brings the number of
    entries above [max_memory_size], the eviction runs; afterwards the
    store holds exactly [max_memory_size] entries when that capacity is
    not negative, and no entry at all when it is negative; the entries
    before the eviction split into the evicted ones and the survivors;
    the combined score of every evicted entry, importance times 0.7 plus
    recency times 0.3 with the recency decaying over seven days and
    never below 0, is at most that of every survivor; and the two
    running totals are lowered by the lengths of the original and
    compressed texts of the evicted entries. *)
Theorem eviction_on_overflow
    (md5_hexdigest : string -> string)
    (_extract_entities : string -> string -> list string)
    (mc : MemoryCompressor) (clock : Clock) (content memory_type : string)
    (context : Score.context_t) :
  let memory :=
    new_memory md5_hexdigest _extract_entities clock content memory_type
      context in
  let before := store_memory mc memory in
  let after :=
    snd (compress_memory md5_hexdigest _extract_entities mc clock content
           memory_type context) in
  let now := cleanup_time clock in
  Py.wf (compressed_memories mc) ->
  (max_memory_size mc < Z.of_nat (size before))%Z ->
  after = _cleanup_old_memories now before
  /\ Z.of_nat (size after) = Z.max 0 (max_memory_size mc)
  /\ ((0 <= max_memory_size mc)%Z ->
      Z.of_nat (size after) = max_memory_size mc)
  /\ ((max_memory_size mc < 0)%Z -> compressed_memories after = [])
  /\ (forall m,
        combined_score now m
        = (importance_score m * 0.7
           + Qmax 0 (1 - (now - timestamp m) / (7 * 24 * 3600)) * 0.3)%Q)
  /\ exists evicted : list CompressedMemory,
       Permutation (Py.values (compressed_memories before))
                   (evicted ++ Py.values (compressed_memories after))
       /\ Z.of_nat (List.length evicted)
          = (Z.of_nat (size before) - Z.max 0 (max_memory_size mc))%Z
       /\ (forall e s,
             In e evicted -> In s (Py.values (compressed_memories after)) ->
             (combined_score now e <= combined_score now s)%Q)
       /\ total_original_size after
          = (total_original_size before - original_total evicted)%Z
       /\ total_compressed_size after
          = (total_compressed_size before - compressed_total evicted)%Z.
Proof.
  intros memory before after now Hwf Hover.
  assert (Hafter : after = _cleanup_old_memories now before).
  { unfold after, compress_memory. cbv zeta. fold memory. fold before.
    apply Z.ltb_lt in Hover.
    change (max_memory_size before) with (max_memory_size mc).
    rewrite Hover. reflexivity. }
  assert (Hwf' : Py.wf (compressed_memories before))
    by (apply set_wf; exact Hwf).
  destruct (cleanup_spec_any now before Hwf' Hover)
    as (Hsize & _ & evicted & Hp & Hlen & Hdom & Ho & Hc).
  rewrite <- Hafter in *.
  change (max_memory_size before) with (max_memory_size mc) in *.
  split; [reflexivity |].
  split; [exact Hsize |].
  split; [intros Hcap; lia |].
  split.
  { intros Hneg. unfold size in Hsize.
    destruct (compressed_memories after); [reflexivity |].
    simpl in Hsize. lia. }
  split; [reflexivity |].
  exists evicted.
  split; [exact Hp |].
  split; [rewrite Hlen; lia |].
  split; [exact Hdom |]. split; [exact Ho | exact Hc].
Qed.

Lemma eviction_on_overflow_witness :
  Py.wf (compressed_memories Examples.full_store)
  /\ (max_memory_size Examples.full_store
      < Z.of_nat
          (size (store_memory Examples.full_store
                   (new_memory Examples.md5_sample Examples.no_entities
                      (Examples.clock_at Examples.noon) "gamma note"
                      "generic" (Some {[ "relevance" := 2%Q ]})))))%Z
  /\ Z.of_nat (size (snd Examples.third_insert))
     = Z.max 0 (max_memory_size Examples.full_store).
Proof.
  assert (Hwf : Py.wf (compressed_memories Examples.full_store)).
  { vm_compute. solve_nodup. }
  assert (Hover : (max_memory_size Examples.full_store
                   < Z.of_nat
                       (size (store_memory Examples.full_store
                                (new_memory Examples.md5_sample
                                   Examples.no_entities
                                   (Examples.clock_at Examples.noon)
                                   "gamma note" "generic"
                                   (Some {[ "relevance" := 2%Q ]})))))%Z).
  { vm_compute. reflexivity. }
  split; [exact Hwf |]. split; [exact Hover |].
  exact (proj1 (proj2
           (eviction_on_overflow Examples.md5_sample Examples.no_entities
              Examples.full_store (Examples.clock_at Examples.noon)
              "gamma note" "generic" (Some {[ "relevance" := 2%Q ]})
              Hwf Hover))).
Defined.

(** C3 fails as stated: with a capacity of -1 the insertion into the
    new compressor overflows, the eviction runs and removes the entry
    just stored, so the store holds 0 entries, which is not the
    capacity. *)
Lemma negative_capacity_empties_store :
  max_memory_size (init (-1) 0.7%Q 0.5%Q) = (-1)%Z
  /\ (max_memory_size (init (-1) 0.7%Q 0.5%Q)
      < Z.of_nat
          (size (store_memory (init (-1) 0.7%Q 0.5%Q)
                   (new_memory Examples.md5_sample Examples.no_entities
                      (Examples.clock_at Examples.noon) "alpha note"
                      "generic" None))))%Z
  /\ size (snd Examples.negative_insert) = 0
  /\ Z.of_nat (size (snd Examples.negative_insert))
     <> max_memory_size (snd Examples.negative_insert).
Proof.
  split; [reflexivity |].
  split; [vm_compute; reflexivity |].
  split; [vm_compute; reflexivity |].
  vm_compute. discriminate.
Qed.

(** The scenario of three insertions at one instant into a store of
    capacity 2: the entry of lowest importance goes. *)
Example eviction_scenario :
  Py.keys (compressed_memories Examples.full_store)
  = ["mem_alph0000_1700000000000"; "mem_beta0000_1700000000000"]
  /\ Py.keys (compressed_memories (snd Examples.third_insert))
     = ["mem_alph0000_1700000000000"; "mem_gamm0000_1700000000000"]
  /\ total_original_size (snd Examples.third_insert) = 20%Z.
Proof. vm_compute. repeat split. Qed.

(** ** Search without a hit *)

(** Without a hit, the score of an entry is its importance bonus. *)
Lemma unmatched_score (query : string) (memory : CompressedMemory) :
  has_hit query memory = false ->
  (search_score (Str.lower query) memory == importance_score memory * 0.3)%Q.
Proof.
  unfold has_hit, search_score. intros H.
  apply orb_false_elim in H as [-> ->]. ring.
Qed.

(** C1, on the code. The store holds the single entry made from
    [hello world]; the query occurs neither in its compressed text nor
    in an entity; the search returns that entry all the same, because
    its importance bonus alone makes the score positive. *)
Theorem search_returns_unmatched_entry :
  let found :=
    search_memories Examples.hello_store "zzz-no-such-token" None 10 in
  map compressed_content found = ["hello world"]
  /\ map key_entities found = [[]]
  /\ map (has_hit "zzz-no-such-token") found = [false]
  /\ found <> [].
Proof.
  cbv zeta. split; [| split; [| split]]; try (vm_compute; reflexivity).
  vm_compute. discriminate.
Qed.

(** ** Reset *)

(** C9, as the code has it. The reset replaces the compressor by a new
    one: the entries, the recent ring, the running totals and the
    summaries are all cleared, so no summary is retrievable after it. *)
Theorem reset_clears_everything (_memory_compressor : MemoryCompressor) :
  let fresh := fst (reset_memory_compression _memory_compressor) in
  compressed_memories fresh = []
  /\ recent_memories fresh = []
  /\ total_original_size fresh = 0%Z
  /\ total_compressed_size fresh = 0%Z
  /\ compression_count fresh = 0%Z
  /\ forall summary_id, get_summary fresh summary_id = None.
Proof.
  cbv zeta. split; [reflexivity |]. split; [reflexivity |].
  split; [reflexivity |]. split; [reflexivity |]. split; [reflexivity |].
  intros summary_id. unfold get_summary. simpl. apply lookup_empty.
Qed.

(** C9 fails as stated: a summary retrievable by its identifier before
    the reset is no longer retrievable after it. *)
Lemma reset_drops_summaries :
  get_summary Examples.summarised_store "summary_session_1700000000000"
  = Some Examples.summary1
  /\ get_summary (fst (reset_memory_compression Examples.summarised_store))
       "summary_session_1700000000000" = None.
Proof.
  split.
  - unfold get_summary, Examples.summarised_store. simpl.
    apply lookup_singleton_eq.
  - unfold get_summary. simpl. apply lookup_empty.
Qed.


(** ** More facts about strings *)

Section SliceFacts.

Lemma string_app_assoc (a b c : string) : (a ++ b) ++ c = a ++ (b ++ c).
Proof.
  induction a as [|x a IH]; [reflexivity |].
  change (String x ((a ++ b) ++ c) = String x (a ++ (b ++ c))).
  now rewrite IH.
Qed.

Lemma string_app_inv_head (a x y : string) : a ++ x = a ++ y -> x = y.
Proof.
  induction a as [|c a IH]; simpl; intros H; [exact H |].
  injection H as H. now apply IH.
Qed.

Lemma take_length (n : nat) (s : string) :
  String.length (Str.take n s) = Nat.min n (String.length s).
Proof.
  revert s. induction n as [|n IH]; intros [|a s]; simpl; try reflexivity.
  now rewrite IH.
Qed.

Lemma drop_length (n : nat) (s : string) :
  String.length (Str.drop n s) = String.length s - n.
Proof.
  revert s. induction n as [|n IH]; intros [|a s]; simpl; try reflexivity.
  now rewrite IH.
Qed.

Lemma take_app_exact (a b : string) :
  Str.take (String.length a) (a ++ b) = a.
Proof. induction a as [|x a IH]; simpl; [now destruct b | now rewrite IH]. Qed.

Lemma drop_app_exact (a b : string) :
  Str.drop (String.length a) (a ++ b) = b.
Proof. induction a as [|x a IH]; simpl; [reflexivity | exact IH]. Qed.

Lemma take_all (n : nat) (s : string) :
  String.length s <= n -> Str.take n s = s.
Proof.
  revert s. induction n as [|n IH]; intros [|a s]; simpl; intros H;
    try reflexivity; try lia.
  rewrite IH by lia. reflexivity.
Qed.

Lemma join_length (sep : string) (l : list string) :
  String.length (Str.join sep l)
  = total_length l + (List.length l - 1) * String.length sep.
Proof.
  induction l as [|a l IH]; [reflexivity |].
  destruct l as [|b l].
  - simpl. lia.
  - rewrite join_cons2, !string_length_app, IH. simpl. lia.
Qed.

Lemma split_total (c : ascii) (s : string) :
  total_length (Str.split c s) + (List.length (Str.split c s) - 1)
  = String.length s.
Proof.
  induction s as [|a s IH]; [reflexivity |].
  simpl. destruct (Ascii.eqb a c).
  - simpl. pose proof (split_length c s). lia.
  - destruct (Str.split c s) as [|h t] eqn:E.
    + pose proof (split_length c s) as H. rewrite E in H. simpl in H. lia.
    + simpl in *. lia.
Qed.

End SliceFacts.

(** X1. A conversation of at most 10 segments is not shortened: the
    strategy rejoins its segments with a period and a space, so the
    output is longer than the input by one character for each period. *)
Theorem conversation_short_grows (content : string) :
  List.length (Str.split "." content) <= 10 ->
  Compress._compress_conversation content
  = Str.join ". " (Str.split "." content)
  /\ String.length (Compress._compress_conversation content)
     = String.length content + (List.length (Str.split "." content) - 1).
Proof.
  intros Hlen.
  assert (E : Compress._compress_conversation content
              = Str.join ". " (Str.split "." content)).
  { unfold Compress._compress_conversation.
    apply Nat.ltb_ge in Hlen. now rewrite Hlen. }
  split; [exact E |].
  rewrite E, join_length.
  pose proof (split_total "." content). simpl String.length. lia.
Qed.

Lemma conversation_short_grows_witness :
  List.length (Str.split "." "We need a fix. It is key.") <= 10
  /\ String.length
       (Compress._compress_conversation "We need a fix. It is key.")
     = String.length "We need a fix. It is key."
       + (List.length (Str.split "." "We need a fix. It is key.") - 1).
Proof.
  assert (H : List.length (Str.split "." "We need a fix. It is key.") <= 10)
    by (vm_compute; lia).
  split; [exact H |].
  apply (conversation_short_grows "We need a fix. It is key." H).
Defined.

(** X2. The generic strategy returns a text of at most 522 characters
    that begins with the first 250 characters of the input and ends
    with its last 250: an input of at most 500 characters is returned
    as it is, a longer one becomes exactly 522 characters long. *)
Theorem generic_bounded (content : string) :
  String.length (Compress._compress_generic content)
  = (if 500 <? String.length content then 522 else String.length content)
  /\ String.length (Compress._compress_generic content) <= 522
  /\ Str.take 250 (Compress._compress_generic content) = Str.take 250 content
  /\ Str.take_last 250 (Compress._compress_generic content)
     = Str.take_last 250 content.
Proof.
  unfold Compress._compress_generic.
  destruct (500 <? String.length content) eqn:E.
  - apply Nat.ltb_lt in E.
    set (head := Str.take 250 content).
    set (tail := Str.take_last 250 content).
    assert (Hh : String.length head = 250)
      by (unfold head; rewrite take_length; lia).
    assert (Ht : String.length tail = 250)
      by (unfold tail, Str.take_last; rewrite drop_length; lia).
    assert (Hm : String.length Compress.generic_marker = 22) by reflexivity.
    assert (Hl : String.length (head ++ Compress.generic_marker ++ tail) = 522)
      by (rewrite !string_length_app; lia).
    split; [exact Hl |]. split; [lia |]. split.
    + rewrite <- Hh at 1. apply take_app_exact.
    + unfold Str.take_last at 1. rewrite Hl.
      rewrite <- string_app_assoc.
      replace (522 - 250) with (String.length (head ++ Compress.generic_marker))
        by (rewrite string_length_app; lia).
      apply drop_app_exact.
  - apply Nat.ltb_ge in E. split; [reflexivity |]. split; [lia |].
    split; reflexivity.
Qed.

(** ** The lines the strategies put out *)

Section OutputLines.

Lemma stripped_lines_free (s : string) :
  Forall (fun l => free_of Str.newline l = true)
         (map Str.strip (lines_of s)).
Proof.
  apply Forall_forall. intros x Hin.
  apply in_map_iff in Hin as (y & <- & Hy).
  apply strip_free.
  pose proof (split_parts_free Str.newline s) as Hall.
  rewrite Forall_forall in Hall. now apply Hall.
Qed.

Lemma code_header_free (total kept : nat) :
  free_of Str.newline (Compress.code_header total kept) = true.
Proof.
  unfold Compress.code_header.
  rewrite !free_of_app, !of_nat_free_of_newline. reflexivity.
Qed.

(** The lines of the output of the error strategy when a line qualifies. *)
Lemma error_lines (error_content : string) :
  let key_lines := Compress.error_key_lines error_content in
  key_lines <> [] ->
  lines_of (Compress._compress_error error_content)
  = if 20 <? List.length key_lines
    then (firstn 10 key_lines
          ++ [Compress.error_marker (List.length key_lines - 20)]
          ++ last_n 10 key_lines)%list
    else key_lines.
Proof.
  intros key_lines Hne.
  pose proof (error_key_lines_free error_content) as Hfree.
  fold key_lines in Hfree. rewrite Forall_forall in Hfree.
  unfold Compress._compress_error. fold key_lines.
  destruct (20 <? List.length key_lines) eqn:E.
  - set (kept := (firstn 10 key_lines
                  ++ [Compress.error_marker (List.length key_lines - 20)]
                  ++ last_n 10 key_lines)%list).
    assert (Hk : kept <> [])
      by (unfold kept; destruct (firstn 10 key_lines); discriminate).
    destruct kept as [|a r] eqn:Ek; [congruence |]. rewrite <- Ek.
    unfold lines_of, Compress.nl. apply split_join; [congruence |].
    apply Forall_forall. intros x Hin. rewrite Ek in Hin. rewrite <- Ek in Hin.
    unfold kept in Hin. apply in_app_or in Hin as [Hin | Hin].
    + apply Hfree. eapply in_firstn; eauto.
    + apply in_app_or in Hin as [[<- | []] | Hin].
      * apply error_marker_free.
      * apply Hfree. unfold last_n in Hin. eapply in_skipn; eauto.
  - destruct key_lines as [|a r] eqn:Ek; [congruence |]. rewrite <- Ek.
    unfold lines_of, Compress.nl. apply split_join; [congruence |].
    apply Forall_forall. intros x Hin. apply Hfree. now rewrite <- Ek.
Qed.

Lemma error_fallback_eq (error_content : string) :
  Compress.error_key_lines error_content = [] ->
  Compress._compress_error error_content
  = Str.take 500 error_content ++ "...".
Proof. intros E. unfold Compress._compress_error. now rewrite E. Qed.

End OutputLines.

(** X3. The output of the error strategy is bounded whatever the input:
    when no line qualifies it is the fallback of at most 503 characters;
    otherwise it has at most 21 lines, each one the omission marker or a
    stripped line of the input that qualifies. *)
Theorem error_output_bounded (error_content : string) :
  let key_lines := Compress.error_key_lines error_content in
  let out := Compress._compress_error error_content in
  (key_lines = [] /\ String.length out <= 503)
  \/ (key_lines <> []
      /\ List.length (lines_of out) <= 21
      /\ Forall (fun l =>
                   l = Compress.error_marker (List.length key_lines - 20)
                   \/ (In l (map Str.strip (lines_of error_content))
                       /\ Compress.error_line_kept l = true))
                (lines_of out)).
Proof.
  cbv zeta.
  assert (Hkeys : forall l, In l (Compress.error_key_lines error_content) ->
                    In l (map Str.strip (lines_of error_content))
                    /\ Compress.error_line_kept l = true).
  { intros l Hl. unfold Compress.error_key_lines in Hl.
    now apply filter_In in Hl. }
  destruct (Compress.error_key_lines error_content) as [|a r] eqn:Ek.
  - left. split; [reflexivity |].
    rewrite (error_fallback_eq error_content Ek).
    rewrite string_length_app, take_length. simpl String.length. lia.
  - right. rewrite <- Ek in *. split; [rewrite Ek; discriminate |].
    assert (Hne : Compress.error_key_lines error_content <> [])
      by (rewrite Ek; discriminate).
    pose proof (error_lines error_content Hne) as Hl. cbv zeta in Hl.
    rewrite Hl.
    destruct (20 <? List.length (Compress.error_key_lines error_content))
      eqn:E.
    + apply Nat.ltb_lt in E. split.
      * pose proof (firstn_le_length 10
                      (Compress.error_key_lines error_content)).
        rewrite !List.length_app. unfold last_n.
        rewrite length_skipn. cbn [Datatypes.length]. lia.
      * apply Forall_forall. intros x Hin.
        apply in_app_or in Hin as [Hin | Hin].
        -- right. apply Hkeys. eapply in_firstn; eauto.
        -- apply in_app_or in Hin as [[<- | []] | Hin]; [now left |].
           right. apply Hkeys. unfold last_n in Hin. eapply in_skipn; eauto.
    + apply Nat.ltb_ge in E. split; [lia |].
      apply Forall_forall. intros x Hin. right. now apply Hkeys.
Qed.

(** X4. The lines of the output of the code strategy are the kept lines
    of the input, after the annotation line when fewer than half of the
    lines are kept; a kept line is a stripped line of the input, is not
    blank, does not start a comment and matches a structural pattern. *)
Theorem code_output_lines (code : string) :
  let lines := lines_of code in
  let kept := filter Compress.code_line_kept (map Str.strip lines) in
  lines_of (Compress._compress_code code)
  = (if List.length kept * 2 <? List.length lines
     then Compress.code_header (List.length lines) (List.length kept) :: kept
     else kept)
  /\ Forall (fun l =>
               In l (map Str.strip lines)
               /\ l <> EmptyString
               /\ String.prefix "#" l = false
               /\ existsb (fun np => Re.re_match (snd np) l)
                          Compress.code_patterns = true)
            kept.
Proof.
  intros lines kept. split.
  - unfold Compress._compress_code. fold (lines_of code). fold lines. fold kept.
    assert (Hfree : Forall (fun l => free_of Str.newline l = true) kept).
    { apply Forall_forall. intros x Hx. apply filter_In in Hx as [Hx _].
      pose proof (stripped_lines_free code) as Hall.
      rewrite Forall_forall in Hall. now apply Hall. }
    unfold lines_of at 1, Compress.nl.
    destruct (List.length kept * 2 <? List.length lines) eqn:E.
    + apply split_join; [discriminate |].
      constructor; [apply code_header_free | exact Hfree].
    + apply split_join; [| exact Hfree].
      apply Nat.ltb_ge in E.
      pose proof (split_length Str.newline code) as Hl.
      fold (lines_of code) in Hl. fold lines in Hl.
      destruct kept; [simpl in E; lia | discriminate].
  - apply Forall_forall. intros l Hl. apply filter_In in Hl as [Hin Hk].
    split; [exact Hin |].
    unfold Compress.code_line_kept in Hk.
    apply andb_prop in Hk as [Hk Hp]. apply andb_prop in Hk as [He Hc].
    split; [now destruct l |].
    split; [now apply negb_true_iff in Hc | exact Hp].
Qed.

(** X5. A solution of one line that is no step is doubled: with no step
    kept, the strategy puts the first two and the last two lines side by
    side, and for a single line both are that line. *)
Theorem solution_single_line_doubled (solution : string) :
  free_of Str.newline solution = true ->
  Compress.solution_line_kept (Str.strip solution) = false ->
  Compress._compress_solution solution = solution ++ Compress.nl ++ solution.
Proof.
  intros Hfree Hkept. unfold Compress._compress_solution.
  rewrite (split_free Str.newline solution Hfree).
  simpl map. simpl filter. rewrite Hkept. reflexivity.
Qed.

Lemma solution_single_line_doubled_witness :
  free_of Str.newline "restart the server" = true
  /\ Compress.solution_line_kept (Str.strip "restart the server") = false
  /\ Compress._compress_solution "restart the server"
     = "restart the server" ++ Compress.nl ++ "restart the server".
Proof.
  split; [reflexivity |]. split; [reflexivity |].
  apply (solution_single_line_doubled "restart the server");
    reflexivity.
Defined.

(** ** Bounds on the scores *)

Section ScoreBounds.

Local Open Scope Q_scope.

Lemma importance_spec_upper (content memory_type : string)
    (context : Score.context_t) :
  SpecSide.relevance_key context = None ->
  SpecSide.importance content memory_type context
  <= (if String.eqb memory_type "code" then 0.8 else 0.6).
Proof.
  intros Hrel. unfold SpecSide.importance. rewrite Hrel.
  pose proof (length_factor_unit content) as [_ Hl].
  pose proof (unit_min _ (proj1 (keyword_fraction_unit content))) as [_ Hk].
  pose proof (complexity_unit content) as [_ Hc].
  revert Hl Hk Hc.
  generalize (SpecSide.length_factor content)
             (Qmin (SpecSide.keyword_fraction content) 1)
             (Score._calculate_code_complexity content).
  intros l k c Hl Hk Hc.
  destruct (String.eqb memory_type "code"); lra.
Qed.

Lemma stale_recency (current_time memory_time : Q) :
  memory_time + week <= current_time ->
  recency_score current_time memory_time == 0.
Proof.
  intros H. unfold recency_score. apply Q.max_l.
  assert (Hw : 0 < week) by reflexivity.
  assert (Hd : 1 <= (current_time - memory_time) / week).
  { apply Qle_shift_div_l; [exact Hw |]. lra. }
  lra.
Qed.

Lemma compress_by_type_nonempty (content memory_type : string) :
  content <> EmptyString ->
  Compress._compress_by_type content memory_type <> EmptyString.
Proof.
  intros Hne. unfold Compress._compress_by_type.
  destruct (String.eqb memory_type "conversation");
    [now apply compress_conversation_nonempty |].
  destruct (String.eqb memory_type "code"); [apply compress_code_nonempty |].
  destruct (String.eqb memory_type "error"); [apply compress_error_nonempty |].
  destruct (String.eqb memory_type "solution");
    [apply compress_solution_nonempty |].
  now apply compress_generic_nonempty.
Qed.

Lemma of_len_pos (s : string) : s <> EmptyString -> 0 < Score.of_len (String.length s).
Proof.
  intros H. destruct s; [congruence |].
  unfold Score.of_len, Qlt. simpl. lia.
Qed.

End ScoreBounds.

(** X6. Without a relevance value the importance score is at most 0.8
    for the kind code and at most 0.6 for every other kind. *)
Theorem importance_upper_bound (content memory_type : string)
    (context : Score.context_t) :
  SpecSide.relevance_key context = None ->
  (Score._calculate_importance content memory_type context
   <= (if String.eqb memory_type "code" then 0.8 else 0.6))%Q.
Proof.
  intros Hrel. rewrite calculate_importance_eq.
  now apply importance_spec_upper.
Qed.

Lemma importance_upper_bound_witness :
  SpecSide.relevance_key (Some ∅) = None
  /\ (Score._calculate_importance "try: fix the bug" "code" (Some ∅)
      <= 0.8)%Q.
Proof.
  assert (H : SpecSide.relevance_key (Some ∅) = None) by reflexivity.
  split; [exact H |].
  apply (importance_upper_bound "try: fix the bug" "code" (Some ∅) H).
Defined.

(** X7. An entry created seven days or more before the eviction has no
    recency left: its combined score is its importance times 0.7, so
    such entries are evicted in the order of their importance alone. *)
Theorem stale_combined_score (current_time : Q) (memory : CompressedMemory) :
  (timestamp memory + week <= current_time)%Q ->
  (recency_score current_time (timestamp memory) == 0)%Q
  /\ (combined_score current_time memory == importance_score memory * 0.7)%Q.
Proof.
  intros H. pose proof (stale_recency _ _ H) as Hr.
  split; [exact Hr |]. unfold combined_score. rewrite Hr. ring.
Qed.

Lemma stale_combined_score_witness :
  (timestamp (new_memory Examples.md5_sample Examples.no_entities
                (Examples.clock_at Examples.noon) "old note" "generic" None)
   + week <= Examples.noon + 604800)%Q
  /\ (combined_score (Examples.noon + 604800)
        (new_memory Examples.md5_sample Examples.no_entities
           (Examples.clock_at Examples.noon) "old note" "generic" None)
      == importance_score
           (new_memory Examples.md5_sample Examples.no_entities
              (Examples.clock_at Examples.noon) "old note" "generic" None)
         * 0.7)%Q.
Proof.
  assert (H : (timestamp
                 (new_memory Examples.md5_sample Examples.no_entities
                    (Examples.clock_at Examples.noon) "old note" "generic"
                    None)
               + week <= Examples.noon + 604800)%Q)
    by (vm_compute; discriminate).
  split; [exact H |].
  apply (stale_combined_score _ _ H).
Defined.

(** X8. The compression ratio recorded for a non-empty text is the
    quotient of the two lengths and is strictly positive. *)
Theorem ratio_positive
    (md5_hexdigest : string -> string)
    (_extract_entities : string -> string -> list string)
    (clock : Clock) (content memory_type : string)
    (context : Score.context_t) :
  content <> EmptyString ->
  let memory :=
    new_memory md5_hexdigest _extract_entities clock content memory_type
      context in
  compression_ratio memory
  = (Score.of_len (String.length (compressed_content memory))
     / Score.of_len (String.length content))%Q
  /\ (0 < compression_ratio memory)%Q.
Proof.
  intros Hne memory.
  assert (E : compression_ratio memory
              = (Score.of_len (String.length (compressed_content memory))
                 / Score.of_len (String.length content))%Q).
  { unfold memory, new_memory. simpl. destruct content; [congruence |].
    reflexivity. }
  split; [exact E |]. rewrite E.
  apply Qlt_shift_div_l; [now apply of_len_pos |].
  rewrite Qmult_0_l. apply of_len_pos.
  unfold memory, new_memory. simpl. now apply compress_by_type_nonempty.
Qed.

Lemma ratio_positive_witness :
  "restart the server" <> EmptyString
  /\ (0 < compression_ratio
            (new_memory Examples.md5_sample Examples.no_entities
               (Examples.clock_at Examples.noon) "restart the server"
               "solution" None))%Q.
Proof.
  assert (H : "restart the server" <> EmptyString) by discriminate.
  split; [exact H |].
  apply (ratio_positive Examples.md5_sample Examples.no_entities
           (Examples.clock_at Examples.noon) "restart the server" "solution"
           None H).
Defined.

(** ** What insertion and eviction keep *)

Section StoreFacts.

Lemma get_set_eq {V : Type} (d : Py.dict V) (k : string) (v : V) :
  Py.get k (Py.set k v d) = Some v.
Proof.
  induction d as [|[k0 v0] d IH]; simpl.
  - now rewrite String.eqb_refl.
  - destruct (String.eqb k k0) eqn:E; simpl.
    + now rewrite String.eqb_refl.
    + now rewrite E.
Qed.

Lemma get_set_ne {V : Type} (d : Py.dict V) (k k' : string) (v : V) :
  k <> k' -> Py.get k' (Py.set k v d) = Py.get k' d.
Proof.
  intros Hne. induction d as [|[k0 v0] d IH]; simpl.
  - destruct (String.eqb_spec k' k); [congruence | reflexivity].
  - destruct (String.eqb_spec k k0) as [-> | Hk]; simpl.
    + destruct (String.eqb_spec k' k0); [congruence | reflexivity].
    + now rewrite IH.
Qed.

Lemma set_fresh {V : Type} (d : Py.dict V) (k : string) (v : V) :
  Py.get k d = None -> Py.set k v d = (d ++ [(k, v)])%list.
Proof.
  induction d as [|[k0 v0] d IH]; simpl; [reflexivity |].
  destruct (String.eqb k k0); [discriminate |].
  intros H. now rewrite IH.
Qed.

Lemma set_present_length {V : Type} (d : Py.dict V) (k : string) (v old : V) :
  Py.get k d = Some old -> List.length (Py.set k v d) = List.length d.
Proof.
  induction d as [|[k0 v0] d IH]; simpl; [discriminate |].
  destruct (String.eqb k k0); simpl; [reflexivity |].
  intros H. now rewrite IH.
Qed.

Lemma remove_memory_frame (mc : MemoryCompressor) (id : string) :
  recent_memories (remove_memory mc id) = recent_memories mc
  /\ memory_summaries (remove_memory mc id) = memory_summaries mc
  /\ compression_count (remove_memory mc id) = compression_count mc
  /\ max_memory_size (remove_memory mc id) = max_memory_size mc.
Proof.
  unfold remove_memory.
  destruct (Py.get id (compressed_memories mc)); simpl; tauto.
Qed.

Lemma remove_memory_wf (mc : MemoryCompressor) (id : string) :
  Py.wf (compressed_memories mc) ->
  Py.wf (compressed_memories (remove_memory mc id)).
Proof.
  intros Hwf. unfold remove_memory.
  destruct (Py.get id (compressed_memories mc)); simpl; [| exact Hwf].
  now apply del_wf.
Qed.

Lemma remove_memory_sub (mc : MemoryCompressor) (id : string)
    (kv : string * CompressedMemory) :
  In kv (compressed_memories (remove_memory mc id)) ->
  In kv (compressed_memories mc).
Proof.
  unfold remove_memory.
  destruct (Py.get id (compressed_memories mc)); simpl; [| tauto].
  apply del_in.
Qed.

Lemma removal_frame (ids : list string) (mc : MemoryCompressor) :
  recent_memories (fold_left remove_memory ids mc) = recent_memories mc
  /\ memory_summaries (fold_left remove_memory ids mc) = memory_summaries mc
  /\ compression_count (fold_left remove_memory ids mc) = compression_count mc
  /\ max_memory_size (fold_left remove_memory ids mc) = max_memory_size mc.
Proof.
  revert mc. induction ids as [|id ids IH]; intros mc; simpl; [tauto |].
  destruct (IH (remove_memory mc id)) as (H1 & H2 & H3 & H4).
  destruct (remove_memory_frame mc id) as (F1 & F2 & F3 & F4).
  rewrite H1, H2, H3, H4. tauto.
Qed.

Lemma removal_wf (ids : list string) (mc : MemoryCompressor) :
  Py.wf (compressed_memories mc) ->
  Py.wf (compressed_memories (fold_left remove_memory ids mc)).
Proof.
  revert mc. induction ids as [|id ids IH]; intros mc Hwf; simpl; [exact Hwf |].
  now apply IH, remove_memory_wf.
Qed.

Lemma removal_sub (ids : list string) (mc : MemoryCompressor)
    (kv : string * CompressedMemory) :
  In kv (compressed_memories (fold_left remove_memory ids mc)) ->
  In kv (compressed_memories mc).
Proof.
  revert mc. induction ids as [|id ids IH]; intros mc; simpl; [tauto |].
  intros H. now apply (remove_memory_sub mc id), IH.
Qed.

Lemma cleanup_frame (current_time : Q) (mc : MemoryCompressor) :
  recent_memories (_cleanup_old_memories current_time mc) = recent_memories mc
  /\ memory_summaries (_cleanup_old_memories current_time mc)
     = memory_summaries mc
  /\ compression_count (_cleanup_old_memories current_time mc)
     = compression_count mc
  /\ max_memory_size (_cleanup_old_memories current_time mc)
     = max_memory_size mc.
Proof.
  unfold _cleanup_old_memories.
  destruct (Z.of_nat (size mc) <=? max_memory_size mc)%Z; [tauto |].
  apply removal_frame.
Qed.

Lemma cleanup_wf (current_time : Q) (mc : MemoryCompressor) :
  Py.wf (compressed_memories mc) ->
  Py.wf (compressed_memories (_cleanup_old_memories current_time mc)).
Proof.
  intros Hwf. unfold _cleanup_old_memories.
  destruct (Z.of_nat (size mc) <=? max_memory_size mc)%Z; [exact Hwf |].
  now apply removal_wf.
Qed.

Lemma cleanup_sub (current_time : Q) (mc : MemoryCompressor)
    (kv : string * CompressedMemory) :
  In kv (compressed_memories (_cleanup_old_memories current_time mc)) ->
  In kv (compressed_memories mc).
Proof.
  unfold _cleanup_old_memories.
  destruct (Z.of_nat (size mc) <=? max_memory_size mc)%Z; [tauto |].
  apply removal_sub.
Qed.

(** The two outcomes of an insertion. *)
Lemma compress_memory_cases
    (md5_hexdigest : string -> string)
    (_extract_entities : string -> string -> list string)
    (mc : MemoryCompressor) (clock : Clock) (content memory_type : string)
    (context : Score.context_t) :
  let memory :=
    new_memory md5_hexdigest _extract_entities clock content memory_type
      context in
  let before := store_memory mc memory in
  let result :=
    compress_memory md5_hexdigest _extract_entities mc clock content
      memory_type context in
  fst result = memory_id memory
  /\ (((Z.of_nat (size before) <= max_memory_size mc)%Z
       /\ snd result = before)
      \/ ((max_memory_size mc < Z.of_nat (size before))%Z
          /\ snd result = _cleanup_old_memories (cleanup_time clock) before)).
Proof.
  cbv zeta. unfold compress_memory. cbv zeta. split; [reflexivity |].
  cbn [snd].
  change (max_memory_size (store_memory mc _)) with (max_memory_size mc).
  destruct (max_memory_size mc <? Z.of_nat (size (store_memory mc _)))%Z eqn:E.
  - right. apply Z.ltb_lt in E. split; [exact E | reflexivity].
  - left. apply Z.ltb_ge in E. split; [exact E | reflexivity].
Qed.

Lemma ring_append_length (ring : list string) (x : string) :
  List.length ring <= 100 -> List.length (ring_append ring x) <= 100.
Proof.
  intros H. unfold ring_append.
  destruct (100 <? List.length (ring ++ [x])) eqn:E.
  - destruct (ring ++ [x])%list as [|a r] eqn:Er; simpl; [lia |].
    assert (Hl : List.length (ring ++ [x]) = S (List.length r))
      by now rewrite Er.
    rewrite List.length_app in Hl. simpl in Hl. lia.
  - now apply Nat.ltb_ge in E.
Qed.

Lemma tl_skipn {A : Type} (k : nat) (l : list A) :
  tl (skipn k l) = skipn (S k) l.
Proof.
  revert l. induction k as [|k IH]; intros [|a l]; simpl; try reflexivity.
  apply IH.
Qed.

Lemma ring_append_last_n (l : list string) (x : string) :
  ring_append (last_n 100 l) x = last_n 100 (l ++ [x]).
Proof.
  unfold ring_append, last_n.
  rewrite !List.length_app, length_skipn. simpl List.length.
  destruct (Nat.le_gt_cases 100 (List.length l)) as [Hge | Hlt].
  - replace (100 <? List.length l - (List.length l - 100) + 1) with true
      by (symmetry; apply Nat.ltb_lt; lia).
    replace (List.length l + 1 - 100) with (S (List.length l - 100)) by lia.
    rewrite skipn_app.
    replace (S (List.length l - 100) - List.length l) with 0 by lia.
    rewrite <- tl_skipn. simpl skipn.
    destruct (skipn (List.length l - 100) l) eqn:E; [| reflexivity].
    apply (f_equal (@List.length string)) in E.
    rewrite length_skipn in E. simpl in E. lia.
  - replace (100 <? List.length l - (List.length l - 100) + 1) with false
      by (symmetry; apply Nat.ltb_ge; lia).
    replace (List.length l - 100) with 0 by lia.
    replace (List.length l + 1 - 100) with 0 by lia.
    reflexivity.
Qed.

End StoreFacts.

Section Totals.

Lemma original_total_app (a b : list CompressedMemory) :
  original_total (a ++ b) = (original_total a + original_total b)%Z.
Proof. induction a as [|m a IH]; simpl; [reflexivity | rewrite IH; lia]. Qed.

Lemma compressed_total_app (a b : list CompressedMemory) :
  compressed_total (a ++ b) = (compressed_total a + compressed_total b)%Z.
Proof. induction a as [|m a IH]; simpl; [reflexivity | rewrite IH; lia]. Qed.

Lemma original_total_perm (a b : list CompressedMemory) :
  Permutation a b -> original_total a = original_total b.
Proof. induction 1; simpl; lia. Qed.

Lemma compressed_total_perm (a b : list CompressedMemory) :
  Permutation a b -> compressed_total a = compressed_total b.
Proof. induction 1; simpl; lia. Qed.

Lemma set_present_totals (d : Py.dict CompressedMemory) (k : string)
    (v old : CompressedMemory) :
  Py.get k d = Some old ->
  original_total (Py.values (Py.set k v d))
  = (original_total (Py.values d) - len (original_content old)
     + len (original_content v))%Z
  /\ compressed_total (Py.values (Py.set k v d))
     = (compressed_total (Py.values d) - len (compressed_content old)
        + len (compressed_content v))%Z.
Proof.
  induction d as [|[k0 v0] d IH]; simpl; [discriminate |].
  destruct (String.eqb k k0); simpl.
  - intros [= ->]. split; lia.
  - intros H. destruct (IH H) as [-> ->]. split; lia.
Qed.

End Totals.

(** The invariant of one insertion. *)
Lemma compress_memory_step
    (md5_hexdigest : string -> string)
    (_extract_entities : string -> string -> list string)
    (mc : MemoryCompressor) (clock : Clock) (content memory_type : string)
    (context : Score.context_t) :
  Py.wf (compressed_memories mc) ->
  (0 <= max_memory_size mc)%Z ->
  let result :=
    compress_memory md5_hexdigest _extract_entities mc clock content
      memory_type context in
  Py.wf (compressed_memories (snd result))
  /\ (Z.of_nat (size (snd result)) <= max_memory_size mc)%Z
  /\ max_memory_size (snd result) = max_memory_size mc
  /\ compression_count (snd result) = (compression_count mc + 1)%Z
  /\ recent_memories (snd result)
     = ring_append (recent_memories mc) (fst result)
  /\ memory_summaries (snd result) = memory_summaries mc.
Proof.
  intros Hwf Hcap result.
  destruct (compress_memory_cases md5_hexdigest _extract_entities mc clock
              content memory_type context) as [Hid Hcases].
  fold result in Hid, Hcases.
  set (memory := new_memory md5_hexdigest _extract_entities clock content
                   memory_type context) in *.
  set (before := store_memory mc memory) in *.
  assert (Hwf' : Py.wf (compressed_memories before))
    by (apply set_wf; exact Hwf).
  destruct Hcases as [[Hle E] | [Hlt E]]; rewrite E, Hid.
  { split; [exact Hwf' |]. split; [exact Hle |].
    split; [reflexivity |]. split; [reflexivity |]. split; reflexivity. }
  destruct (cleanup_spec (cleanup_time clock) before Hwf' Hcap Hlt)
    as (Hsize & Hmax & _).
  destruct (cleanup_frame (cleanup_time clock) before) as (F1 & F2 & F3 & F4).
  rewrite F1, F2, F3, F4.
  split; [now apply cleanup_wf |].
  split; [change (max_memory_size before) with (max_memory_size mc) in Hsize;
          lia |].
  split; [reflexivity |]. split; [reflexivity |]. split; reflexivity.
Qed.

(** X9. Serving any sequence of insertions from a new compressor of
    capacity [max_size >= 0] keeps the table free of duplicate keys,
    never leaves more than [max_size] entries, keeps at most 100
    identifiers in the recent ring and counts every insertion. *)
Theorem serve_invariants
    (md5_hexdigest : string -> string)
    (_extract_entities : string -> string -> list string)
    (max_size : Z) (compression_threshold importance_threshold : Q)
    (requests : list Request) :
  (0 <= max_size)%Z ->
  let mc :=
    serve md5_hexdigest _extract_entities
      (init max_size compression_threshold importance_threshold) requests in
  Py.wf (compressed_memories mc)
  /\ (Z.of_nat (size mc) <= max_size)%Z
  /\ List.length (recent_memories mc) <= 100
  /\ compression_count mc = Z.of_nat (List.length requests)
  /\ max_memory_size mc = max_size.
Proof.
  intros Hcap. cbv zeta. unfold serve.
  induction requests as [|r requests IH] using rev_ind.
  - unfold size, init. simpl. split; [constructor |]. split; [lia |].
    split; [lia |]. split; reflexivity.
  - rewrite fold_left_app. cbn [fold_left].
    destruct IH as (Hwf & Hsize & Hring & Hcount & Hmax).
    set (mc := fold_left _ requests _) in *.
    rewrite <- Hmax in Hcap.
    destruct (compress_memory_step md5_hexdigest _extract_entities mc
                (req_clock r) (req_content r) (req_type r) (req_context r)
                Hwf Hcap) as (W & S & M & C & R & _).
    split; [exact W |]. split; [rewrite <- Hmax; exact S |].
    split; [rewrite R; now apply ring_append_length |].
    split; [rewrite C, Hcount, List.length_app; simpl; lia |].
    now rewrite M.
Qed.

Lemma serve_invariants_witness :
  (0 <= 1)%Z
  /\ (Z.of_nat
        (size (serve Examples.md5_sample Examples.no_entities
                 (init 1 0.7%Q 0.5%Q)
                 [mkRequest (Examples.clock_at Examples.noon) "alpha note"
                    "generic" None;
                  mkRequest (Examples.clock_at Examples.noon) "beta note"
                    "code" None])) <= 1)%Z.
Proof.
  assert (H : (0 <= 1)%Z) by lia.
  split; [exact H |].
  apply (serve_invariants Examples.md5_sample Examples.no_entities 1 0.7%Q
           0.5%Q
           [mkRequest (Examples.clock_at Examples.noon) "alpha note" "generic"
              None;
            mkRequest (Examples.clock_at Examples.noon) "beta note" "code"
              None] H).
Defined.

(** X10. After any sequence of insertions into a new compressor the
    recent ring holds the identifiers of the last 100 insertions, oldest
    first, whether or not their entries have been evicted since. *)
Theorem ring_holds_last_ids
    (md5_hexdigest : string -> string)
    (_extract_entities : string -> string -> list string)
    (max_size : Z) (compression_threshold importance_threshold : Q)
    (requests : list Request) :
  recent_memories
    (serve md5_hexdigest _extract_entities
       (init max_size compression_threshold importance_threshold) requests)
  = last_n 100 (request_ids md5_hexdigest requests).
Proof.
  unfold serve.
  induction requests as [|r requests IH] using rev_ind; [reflexivity |].
  rewrite fold_left_app. cbn [fold_left].
  set (mc := fold_left _ requests _) in *.
  destruct (compress_memory_cases md5_hexdigest _extract_entities mc
              (req_clock r) (req_content r) (req_type r) (req_context r))
    as [Hid Hcases].
  assert (R : recent_memories
                (snd (compress_memory md5_hexdigest _extract_entities mc
                        (req_clock r) (req_content r) (req_type r)
                        (req_context r)))
              = ring_append (recent_memories mc)
                  (_generate_memory_id md5_hexdigest (id_time (req_clock r))
                     (req_content r))).
  { destruct Hcases as [[_ ->] | [_ ->]]; [reflexivity |].
    now destruct (cleanup_frame (cleanup_time (req_clock r))
                    (store_memory mc
                       (new_memory md5_hexdigest _extract_entities
                          (req_clock r) (req_content r) (req_type r)
                          (req_context r)))) as (-> & _). }
  rewrite R, IH. unfold request_ids. rewrite map_app. simpl map.
  apply ring_append_last_n.
Qed.

(** X11. An insertion that does not overflow the store can be read
    back: the identifier returned retrieves the entry just made, with
    the original text in it, and every other identifier retrieves what
    it retrieved before. *)
Theorem insert_then_get
    (md5_hexdigest : string -> string)
    (_extract_entities : string -> string -> list string)
    (mc : MemoryCompressor) (clock : Clock) (content memory_type : string)
    (context : Score.context_t) :
  let memory :=
    new_memory md5_hexdigest _extract_entities clock content memory_type
      context in
  let result :=
    compress_memory md5_hexdigest _extract_entities mc clock content
      memory_type context in
  (Z.of_nat (size (store_memory mc memory)) <= max_memory_size mc)%Z ->
  get_memory (snd result) (fst result) = Some memory
  /\ original_content memory = content
  /\ forall other,
       other <> fst result ->
       get_memory (snd result) other = get_memory mc other.
Proof.
  intros memory result Hfit.
  destruct (compress_memory_cases md5_hexdigest _extract_entities mc clock
              content memory_type context) as [Hid Hcases].
  fold memory in Hid, Hcases. fold result in Hid, Hcases.
  destruct Hcases as [[_ E] | [Hlt _]]; [| lia].
  rewrite E, Hid. unfold get_memory, store_memory. simpl.
  split; [apply get_set_eq |]. split; [reflexivity |].
  intros other Hne. apply get_set_ne. congruence.
Qed.

Lemma insert_then_get_witness :
  (Z.of_nat
     (size (store_memory default_compressor
              (new_memory (Examples.md5_const Examples.md5_of_hello)
                 Examples.no_entities (Examples.clock_at Examples.noon)
                 "hello world" "generic" None)))
   <= max_memory_size default_compressor)%Z
  /\ get_memory Examples.hello_store "mem_5eb63bbb_1700000000000"
     = Some (new_memory (Examples.md5_const Examples.md5_of_hello)
               Examples.no_entities (Examples.clock_at Examples.noon)
               "hello world" "generic" None).
Proof.
  assert (H : (Z.of_nat
                 (size (store_memory default_compressor
                          (new_memory (Examples.md5_const Examples.md5_of_hello)
                             Examples.no_entities
                             (Examples.clock_at Examples.noon)
                             "hello world" "generic" None)))
               <= max_memory_size default_compressor)%Z)
    by (vm_compute; discriminate).
  split; [exact H |].
  apply (insert_then_get (Examples.md5_const Examples.md5_of_hello)
           Examples.no_entities default_compressor
           (Examples.clock_at Examples.noon) "hello world" "generic" None H).
Defined.

(** X12. The running totals stay equal to the volume stored as long as
    identifiers are new: when the two totals are the sums of the lengths
    of the original and compressed texts of the entries, and the
    identifier of the insertion is not yet present, the same holds
    afterwards, eviction included. *)
Theorem totals_track_volume
    (md5_hexdigest : string -> string)
    (_extract_entities : string -> string -> list string)
    (mc : MemoryCompressor) (clock : Clock) (content memory_type : string)
    (context : Score.context_t) :
  let result :=
    compress_memory md5_hexdigest _extract_entities mc clock content
      memory_type context in
  Py.wf (compressed_memories mc) ->
  get_memory mc (fst result) = None ->
  total_original_size mc = original_total (Py.values (compressed_memories mc)) ->
  total_compressed_size mc
  = compressed_total (Py.values (compressed_memories mc)) ->
  total_original_size (snd result)
  = original_total (Py.values (compressed_memories (snd result)))
  /\ total_compressed_size (snd result)
     = compressed_total (Py.values (compressed_memories (snd result))).
Proof.
  intros result Hwf Hfresh Ho Hc.
  destruct (compress_memory_cases md5_hexdigest _extract_entities mc clock
              content memory_type context) as [Hid Hcases].
  fold result in Hid, Hcases.
  set (memory := new_memory md5_hexdigest _extract_entities clock content
                   memory_type context) in *.
  set (before := store_memory mc memory) in *.
  rewrite Hid in Hfresh. unfold get_memory in Hfresh.
  assert (Hvals : Py.values (compressed_memories before)
                  = (Py.values (compressed_memories mc) ++ [memory])%list).
  { unfold before, store_memory. simpl. rewrite (set_fresh _ _ _ Hfresh).
    unfold Py.values. now rewrite map_app. }
  assert (Hbo : total_original_size before
                = original_total (Py.values (compressed_memories before))).
  { rewrite Hvals, original_total_app. unfold before, store_memory. simpl.
    lia. }
  assert (Hbc : total_compressed_size before
                = compressed_total (Py.values (compressed_memories before))).
  { rewrite Hvals, compressed_total_app. unfold before, store_memory. simpl.
    lia. }
  destruct Hcases as [[_ E] | [Hlt E]]; rewrite E; [split; assumption |].
  assert (Hwf' : Py.wf (compressed_memories before))
    by (apply set_wf; exact Hwf).
  destruct (cleanup_spec_any (cleanup_time clock) before Hwf' Hlt)
    as (_ & _ & evicted & Hp & _ & _ & Ho' & Hc').
  rewrite Ho', Hc', Hbo, Hbc.
  rewrite (original_total_perm _ _ Hp), (compressed_total_perm _ _ Hp).
  rewrite original_total_app, compressed_total_app. split; lia.
Qed.

Lemma totals_track_volume_witness :
  Py.wf (compressed_memories Examples.full_store)
  /\ total_original_size (snd Examples.third_insert)
     = original_total
         (Py.values (compressed_memories (snd Examples.third_insert))).
Proof.
  assert (Hwf : Py.wf (compressed_memories Examples.full_store))
    by (vm_compute; solve_nodup).
  split; [exact Hwf |].
  apply (totals_track_volume Examples.md5_sample Examples.no_entities
           Examples.full_store (Examples.clock_at Examples.noon) "gamma note"
           "generic" (Some {[ "relevance" := 2%Q ]}) Hwf);
    vm_compute; congruence.
Defined.

(** X13. An insertion under an identifier that is already present
    replaces the entry in its place: the number of entries does not
    change, yet the totals grow by the lengths of the new texts with
    nothing taken off for the entry replaced, so they overstate the
    volume stored by the lengths of the replaced texts. *)
Theorem overwrite_inflates_totals
    (md5_hexdigest : string -> string)
    (_extract_entities : string -> string -> list string)
    (mc : MemoryCompressor) (clock : Clock) (content memory_type : string)
    (context : Score.context_t) (old : CompressedMemory) :
  let memory :=
    new_memory md5_hexdigest _extract_entities clock content memory_type
      context in
  let result :=
    compress_memory md5_hexdigest _extract_entities mc clock content
      memory_type context in
  get_memory mc (memory_id memory) = Some old ->
  (Z.of_nat (size mc) <= max_memory_size mc)%Z ->
  fst result = memory_id memory
  /\ size (snd result) = size mc
  /\ get_memory (snd result) (fst result) = Some memory
  /\ total_original_size (snd result)
     = (total_original_size mc + len content)%Z
  /\ total_compressed_size (snd result)
     = (total_compressed_size mc + len (compressed_content memory))%Z
  /\ original_total (Py.values (compressed_memories (snd result)))
     = (original_total (Py.values (compressed_memories mc))
        - len (original_content old) + len content)%Z
  /\ compressed_total (Py.values (compressed_memories (snd result)))
     = (compressed_total (Py.values (compressed_memories mc))
        - len (compressed_content old) + len (compressed_content memory))%Z.
Proof.
  intros memory result Hold Hfit. unfold get_memory in Hold.
  destruct (compress_memory_cases md5_hexdigest _extract_entities mc clock
              content memory_type context) as [Hid Hcases].
  fold memory in Hid, Hcases. fold result in Hid, Hcases.
  assert (Hsize : size (store_memory mc memory) = size mc).
  { unfold size, store_memory. simpl. now apply (set_present_length _ _ _ old). }
  destruct Hcases as [[_ E] | [Hlt _]]; [| rewrite Hsize in Hlt; lia].
  rewrite E, Hid.
  destruct (set_present_totals (compressed_memories mc) (memory_id memory)
              memory old Hold) as [To Tc].
  split; [reflexivity |]. split; [exact Hsize |].
  split; [unfold get_memory, store_memory; simpl; apply get_set_eq |].
  split; [reflexivity |]. split; [reflexivity |].
  split; [exact To | exact Tc].
Qed.

Lemma overwrite_inflates_totals_witness :
  get_memory Examples.hello_store
    (memory_id
       (new_memory (Examples.md5_const Examples.md5_of_hello)
          Examples.no_entities (Examples.clock_at Examples.noon)
          "hello world" "generic" None))
  = Some (new_memory (Examples.md5_const Examples.md5_of_hello)
            Examples.no_entities (Examples.clock_at Examples.noon)
            "hello world" "generic" None)
  /\ (Z.of_nat (size Examples.hello_store)
      <= max_memory_size Examples.hello_store)%Z
  /\ size (snd (compress_memory (Examples.md5_const Examples.md5_of_hello)
                  Examples.no_entities Examples.hello_store
                  (Examples.clock_at Examples.noon) "hello world" "generic"
                  None))
     = size Examples.hello_store.
Proof.
  assert (H1 : get_memory Examples.hello_store
                 (memory_id
                    (new_memory (Examples.md5_const Examples.md5_of_hello)
                       Examples.no_entities (Examples.clock_at Examples.noon)
                       "hello world" "generic" None))
               = Some (new_memory (Examples.md5_const Examples.md5_of_hello)
                         Examples.no_entities
                         (Examples.clock_at Examples.noon)
                         "hello world" "generic" None))
    by (vm_compute; reflexivity).
  assert (H2 : (Z.of_nat (size Examples.hello_store)
                <= max_memory_size Examples.hello_store)%Z)
    by (vm_compute; discriminate).
  split; [exact H1 |]. split; [exact H2 |].
  apply (overwrite_inflates_totals (Examples.md5_const Examples.md5_of_hello)
           Examples.no_entities Examples.hello_store
           (Examples.clock_at Examples.noon) "hello world" "generic" None
           _ H1 H2).
Defined.

(** X14. The eviction only removes entries: in a table without
    duplicate keys every surviving entry is retrieved under its
    identifier exactly as before, and the recent ring, the summaries and
    the count of compressions are left as they were. *)
Theorem eviction_only_removes (current_time : Q) (mc : MemoryCompressor) :
  Py.wf (compressed_memories mc) ->
  let after := _cleanup_old_memories current_time mc in
  Forall (fun kv => get_memory mc (fst kv) = Some (snd kv))
         (compressed_memories after)
  /\ recent_memories after = recent_memories mc
  /\ memory_summaries after = memory_summaries mc
  /\ compression_count after = compression_count mc.
Proof.
  intros Hwf after.
  destruct (cleanup_frame current_time mc) as (F1 & F2 & F3 & _).
  split; [| split; [exact F1 | split; [exact F2 | exact F3]]].
  apply Forall_forall. intros [k m] Hin.
  apply cleanup_sub in Hin. unfold get_memory. simpl.
  now apply in_get.
Qed.

Lemma eviction_only_removes_witness :
  Py.wf (compressed_memories
           (store_memory Examples.full_store
              (new_memory Examples.md5_sample Examples.no_entities
                 (Examples.clock_at Examples.noon) "gamma note" "generic"
                 None)))
  /\ recent_memories
       (_cleanup_old_memories Examples.noon
          (store_memory Examples.full_store
             (new_memory Examples.md5_sample Examples.no_entities
                (Examples.clock_at Examples.noon) "gamma note" "generic"
                None)))
     = recent_memories
         (store_memory Examples.full_store
            (new_memory Examples.md5_sample Examples.no_entities
               (Examples.clock_at Examples.noon) "gamma note" "generic"
               None)).
Proof.
  assert (Hwf : Py.wf (compressed_memories
                         (store_memory Examples.full_store
                            (new_memory Examples.md5_sample
                               Examples.no_entities
                               (Examples.clock_at Examples.noon) "gamma note"
                               "generic" None))))
    by (vm_compute; solve_nodup).
  split; [exact Hwf |].
  apply (eviction_only_removes Examples.noon _ Hwf).
Defined.

(** ** More on the search *)

Section SearchMore.

Lemma slice_to_sub {A : Type} (n : Z) (l : list A) (x : A) :
  In x (Py.slice_to n l) -> In x l.
Proof.
  unfold Py.slice_to. destruct (n <? 0)%Z; apply in_firstn.
Qed.

Lemma slice_to_length {A : Type} (n : Z) (l : list A) :
  List.length (Py.slice_to n l)
  = if (n <? 0)%Z then Z.to_nat (Z.of_nat (List.length l) + n)
    else Nat.min (Z.to_nat n) (List.length l).
Proof.
  unfold Py.slice_to. destruct (n <? 0)%Z eqn:E; rewrite length_firstn.
  - apply Z.ltb_lt in E. lia.
  - reflexivity.
Qed.

Lemma search_results_retained (mc : MemoryCompressor) (query : string)
    (wanted : option string) (limit : Z) (m : CompressedMemory) :
  In m (search_memories mc query wanted limit) ->
  In m (retained query wanted mc).
Proof.
  unfold search_memories. intros Hin.
  apply in_map_iff in Hin as (p & <- & Hp).
  apply slice_to_sub in Hp.
  apply (Permutation_in _ (sort_perm score_desc _)) in Hp.
  rewrite <- scored_results_snd. now apply in_map.
Qed.

Lemma char_lower_idem (c : ascii) : Char.lower (Char.lower c) = Char.lower c.
Proof. destruct c as [[] [] [] [] [] [] [] []]; reflexivity. Qed.

Lemma lower_idem (s : string) : Str.lower (Str.lower s) = Str.lower s.
Proof.
  induction s as [|a s IH]; simpl; [reflexivity |].
  now rewrite char_lower_idem, IH.
Qed.

Lemma contains_empty (s : string) : Str.contains EmptyString s = true.
Proof. destruct s; reflexivity. Qed.

End SearchMore.

(** X15. Whatever the limit, every entry the search returns is an entry
    of the store with a positive score, and it has the kind asked for
    when a kind is given that is not the empty string. *)
Theorem search_sound (mc : MemoryCompressor) (query : string)
    (wanted : option string) (limit : Z) :
  Forall (fun m =>
            In m (Py.values (compressed_memories mc))
            /\ (0 < search_score (Str.lower query) m)%Q
            /\ match wanted with
               | Some kind => kind = EmptyString \/ memory_type m = kind
               | None => True
               end)
         (search_memories mc query wanted limit).
Proof.
  apply Forall_forall. intros m Hin.
  apply search_results_retained, retained_spec in Hin as (Hv & Ht & Hs).
  split; [exact Hv |]. split; [exact Hs |].
  destruct wanted as [kind|]; [| exact I].
  unfold type_filtered in Ht. destruct kind as [|a kind]; [now left |].
  right. simpl in Ht. apply negb_false_iff in Ht. now apply String.eqb_eq.
Qed.

(** X16. The number of entries returned for any limit: the smaller of
    the limit and the number of retained entries when the limit is not
    negative, and the number of retained entries less the size of the
    limit, or none, when it is negative. *)
Theorem search_result_count (mc : MemoryCompressor) (query : string)
    (wanted : option string) (limit : Z) :
  let n := List.length (retained query wanted mc) in
  List.length (search_memories mc query wanted limit)
  = if (limit <? 0)%Z then Z.to_nat (Z.of_nat n + limit)
    else Nat.min (Z.to_nat limit) n.
Proof.
  cbv zeta. unfold search_memories.
  rewrite length_map, slice_to_length.
  rewrite (Permutation_length (sort_perm score_desc _)).
  rewrite <- scored_results_snd, length_map. reflexivity.
Qed.

(** X17. The search does not depend on the case of the query: a query
    and its lower-case form return the same list. *)
Theorem search_ignores_query_case (mc : MemoryCompressor) (query : string)
    (wanted : option string) (limit : Z) :
  search_memories mc query wanted limit
  = search_memories mc (Str.lower query) wanted limit.
Proof.
  unfold search_memories, scored_results. now rewrite lower_idem.
Qed.

(** X18. The empty query hits the text of every entry: each entry scores
    1, plus 0.5 when it has an entity, plus its importance bonus, so a
    store whose importances are not negative is retained whole. *)
Theorem empty_query_matches_all (mc : MemoryCompressor) :
  Forall (fun m => (0 <= importance_score m)%Q)
         (Py.values (compressed_memories mc)) ->
  Forall (fun m =>
            (search_score (Str.lower EmptyString) m
             == 1 + (match key_entities m with [] => 0 | _ :: _ => 0.5 end)
                + importance_score m * 0.3)%Q)
         (Py.values (compressed_memories mc))
  /\ retained EmptyString None mc = Py.values (compressed_memories mc).
Proof.
  intros Himp.
  assert (Hscore : forall m,
            (search_score (Str.lower EmptyString) m
             == 1 + (match key_entities m with [] => 0 | _ :: _ => 0.5 end)
                + importance_score m * 0.3)%Q).
  { intros m. unfold search_score.
    assert (Hc : content_hit (Str.lower EmptyString) m = true)
      by apply contains_empty.
    assert (He : entity_hit (Str.lower EmptyString) m
                 = match key_entities m with [] => false | _ :: _ => true end).
    { unfold entity_hit. destruct (key_entities m) as [|e es];
        [reflexivity |].
      cbn [existsb]. change (Str.lower EmptyString) with EmptyString.
      now rewrite (contains_empty (Str.lower e)). }
    rewrite Hc, He. destruct (key_entities m); ring. }
  split; [apply Forall_forall; intros m _; apply Hscore |].
  unfold retained. rewrite Forall_forall in Himp.
  induction (Py.values (compressed_memories mc)) as [|m l IH];
    [reflexivity |].
  cbn [filter type_filtered negb andb].
  assert (Hpos : Qltb 0 (search_score (Str.lower EmptyString) m) = true).
  { apply Qltb_lt. rewrite Hscore.
    assert (0 <= importance_score m)%Q by (apply Himp; now left).
    destruct (key_entities m); lra. }
  rewrite Hpos. f_equal. apply IH.
  intros x Hx. apply Himp. now right.
Qed.

Lemma empty_query_matches_all_witness :
  Forall (fun m => (0 <= importance_score m)%Q)
         (Py.values (compressed_memories Examples.full_store))
  /\ retained EmptyString None Examples.full_store
     = Py.values (compressed_memories Examples.full_store).
Proof.
  assert (H : Forall (fun m => (0 <= importance_score m)%Q)
                     (Py.values (compressed_memories Examples.full_store))).
  { vm_compute. repeat (constructor; [discriminate |]). constructor. }
  split; [exact H |].
  apply (empty_query_matches_all Examples.full_store H).
Defined.

(** ** Identifiers *)

Section Identifiers.

Lemma to_int_proper (z : Z) :
  Z.to_int z <> Decimal.Pos Decimal.Nil /\ Z.to_int z <> Decimal.Neg Decimal.Nil.
Proof.
  destruct z as [|p|p]; simpl; split; try discriminate;
    intros [= H]; now apply (DecimalPos.Unsigned.to_uint_nonnil p).
Qed.

Lemma of_Z_inj (z1 z2 : Z) : Str.of_Z z1 = Str.of_Z z2 -> z1 = z2.
Proof.
  unfold Str.of_Z. intros H.
  apply (f_equal NilZero.int_of_string) in H.
  destruct (to_int_proper z1) as [A1 B1].
  destruct (to_int_proper z2) as [A2 B2].
  rewrite !NilZero.isi in H by assumption.
  injection H as H. now apply DecimalZ.to_int_inj.
Qed.

End Identifiers.

(** X19. Two identifiers made for the same content are equal exactly
    when the clock shows the same millisecond: the same text submitted
    again within one millisecond gets the identifier it had, and in any
    other millisecond a different one. *)
Theorem memory_id_per_millisecond (md5_hexdigest : string -> string)
    (t1 t2 : Q) (content : string) :
  _generate_memory_id md5_hexdigest t1 content
  = _generate_memory_id md5_hexdigest t2 content
  <-> int_of (t1 * 1000) = int_of (t2 * 1000).
Proof.
  unfold _generate_memory_id. split.
  - intros H.
    apply string_app_inv_head in H. apply string_app_inv_head in H.
    apply string_app_inv_head in H. now apply of_Z_inj.
  - intros ->. reflexivity.
Qed.

(** ** Statistics *)

Section Distribution.

Let step (distribution : Py.dict Z) (memory : CompressedMemory) : Py.dict Z :=
  Py.set (memory_type memory)
         (count_in (memory_type memory) distribution + 1)%Z distribution.

Lemma count_in_set (d : Py.dict Z) (k k' : string) (v : Z) :
  count_in k' (Py.set k v d) = if String.eqb k k' then v else count_in k' d.
Proof.
  unfold count_in. destruct (String.eqb_spec k k') as [-> | Hne].
  - now rewrite get_set_eq.
  - now rewrite get_set_ne.
Qed.

Lemma count_kind_cons (kind : string) (m : CompressedMemory)
    (l : list CompressedMemory) :
  count_kind kind (m :: l)
  = ((if String.eqb (memory_type m) kind then 1 else 0) + count_kind kind l)%Z.
Proof.
  unfold count_kind. simpl.
  destruct (String.eqb (memory_type m) kind); simpl; lia.
Qed.

Lemma distribution_counts (l : list CompressedMemory) :
  forall (acc : Py.dict Z) (kind : string),
    count_in kind (fold_left step l acc)
    = (count_in kind acc + count_kind kind l)%Z.
Proof.
  induction l as [|m l IH]; intros acc kind.
  - unfold count_kind. simpl. lia.
  - simpl fold_left. rewrite IH, count_kind_cons. unfold step.
    rewrite count_in_set.
    destruct (String.eqb_spec (memory_type m) kind) as [-> | Hne]; lia.
Qed.

Lemma set_in {V : Type} (d : Py.dict V) (k : string) (v : V)
    (kv : string * V) :
  In kv (Py.set k v d) -> kv = (k, v) \/ In kv d.
Proof.
  induction d as [|[k0 v0] d IH]; simpl.
  - intros [<- | []]. now left.
  - destruct (String.eqb k k0); simpl.
    + intros [<- | H]; [now left | right; now right].
    + intros [<- | H]; [right; now left |].
      destruct (IH H) as [-> | H']; [now left | right; now right].
Qed.

Lemma count_in_nonneg (d : Py.dict Z) (kind : string) :
  Forall (fun kv => (0 < snd kv)%Z) d -> (0 <= count_in kind d)%Z.
Proof.
  intros Hall. unfold count_in.
  destruct (Py.get kind d) as [n|] eqn:E; [| lia].
  apply get_in in E. rewrite Forall_forall in Hall.
  specialize (Hall _ E). simpl in Hall. lia.
Qed.

Lemma distribution_positive (l : list CompressedMemory) :
  forall acc : Py.dict Z,
    Forall (fun kv => (0 < snd kv)%Z) acc ->
    Forall (fun kv => (0 < snd kv)%Z) (fold_left step l acc).
Proof.
  induction l as [|m l IH]; intros acc Hacc; [exact Hacc |].
  simpl fold_left. apply IH. apply Forall_forall. intros kv Hin.
  apply set_in in Hin as [-> | Hin].
  - simpl. pose proof (count_in_nonneg acc (memory_type m) Hacc). lia.
  - rewrite Forall_forall in Hacc. now apply Hacc.
Qed.

Lemma distribution_wf (l : list CompressedMemory) :
  forall acc : Py.dict Z, Py.wf acc -> Py.wf (fold_left step l acc).
Proof.
  induction l as [|m l IH]; intros acc Hacc; [exact Hacc |].
  simpl fold_left. apply IH. now apply set_wf.
Qed.

Lemma total_set (d : Py.dict Z) (k : string) :
  distribution_total (Py.set k (count_in k d + 1)%Z d)
  = (distribution_total d + 1)%Z.
Proof.
  unfold distribution_total, count_in.
  induction d as [|[k0 v0] d IH]; simpl; [reflexivity |].
  destruct (String.eqb k k0); simpl; [lia |]. rewrite IH. lia.
Qed.

Lemma distribution_sum (l : list CompressedMemory) :
  forall acc : Py.dict Z,
    distribution_total (fold_left step l acc)
    = (distribution_total acc + Z.of_nat (List.length l))%Z.
Proof.
  induction l as [|m l IH]; intros acc.
  - simpl. lia.
  - simpl fold_left. rewrite IH. unfold step. rewrite total_set.
    simpl List.length. lia.
Qed.

Lemma distribution_unfold (mc : MemoryCompressor) :
  _get_memory_type_distribution mc
  = fold_left step (Py.values (compressed_memories mc)) [].
Proof. reflexivity. Qed.

(** X20. The distribution of kinds holds, for every kind that occurs,
    the number of entries of that kind, which is positive, and holds
    nothing for a kind that does not occur; no kind is listed twice and
    the counts add up to the number of entries. *)
Theorem distribution_counts_kinds (mc : MemoryCompressor) (kind : string) :
  let distribution := _get_memory_type_distribution mc in
  let entries := Py.values (compressed_memories mc) in
  match Py.get kind distribution with
  | Some n => n = count_kind kind entries /\ (0 < n)%Z
  | None => count_kind kind entries = 0%Z
  end
  /\ Py.wf distribution
  /\ distribution_total distribution = Z.of_nat (size mc).
Proof.
  cbv zeta. rewrite distribution_unfold.
  pose proof (distribution_counts (Py.values (compressed_memories mc)) [] kind)
    as Hc.
  pose proof (distribution_positive (Py.values (compressed_memories mc)) []
                (Forall_nil _)) as Hp.
  split; [| split].
  - unfold count_in in Hc. simpl Py.get in Hc.
    destruct (Py.get kind _) as [n|] eqn:E.
    + split; [lia |]. apply get_in in E. rewrite Forall_forall in Hp.
      now apply (Hp (kind, n)).
    + lia.
  - apply distribution_wf. constructor.
  - rewrite distribution_sum. unfold size, Py.values.
    rewrite length_map. reflexivity.
Qed.

End Distribution.

(** X21. The statistics fail with a division by zero exactly when
    something has been compressed and the table is empty; in every
    other state they return a report. *)
Theorem stats_fail_on_empty_table (mc : MemoryCompressor) :
  get_compression_stats mc = None
  <-> compression_count mc <> 0%Z /\ compressed_memories mc = [].
Proof.
  unfold get_compression_stats.
  destruct (compression_count mc =? 0)%Z eqn:E.
  - apply Z.eqb_eq in E. split; [discriminate | intros [H _]; contradiction].
  - apply Z.eqb_neq in E.
    destruct (compressed_memories mc) as [|kv d]; split; try discriminate.
    + intros _. split; [exact E | reflexivity].
    + reflexivity.
    + intros [_ H]. discriminate.
Qed.

(** X22. With a capacity of 0 every insertion is evicted at once: the
    table is empty after it while the count of compressions is not 0,
    and the statistics then fail with the division by zero. *)
Theorem zero_capacity_breaks_stats
    (md5_hexdigest : string -> string)
    (_extract_entities : string -> string -> list string)
    (mc : MemoryCompressor) (clock : Clock) (content memory_type : string)
    (context : Score.context_t) :
  let after :=
    snd (compress_memory md5_hexdigest _extract_entities mc clock content
           memory_type context) in
  Py.wf (compressed_memories mc) ->
  max_memory_size mc = 0%Z ->
  (0 <= compression_count mc)%Z ->
  compressed_memories after = []
  /\ compression_count after = (compression_count mc + 1)%Z
  /\ get_compression_stats after = None.
Proof.
  intros after Hwf Hmax Hcount.
  assert (Hcap : (0 <= max_memory_size mc)%Z) by lia.
  destruct (compress_memory_step md5_hexdigest _extract_entities mc clock
              content memory_type context Hwf Hcap)
    as (_ & Hsize & _ & Hc & _).
  fold after in Hsize, Hc.
  assert (He : compressed_memories after = []).
  { unfold size in Hsize. destruct (compressed_memories after);
      [reflexivity | simpl in Hsize; lia]. }
  split; [exact He |]. split; [exact Hc |].
  unfold get_compression_stats. rewrite Hc, He.
  destruct (compression_count mc + 1 =? 0)%Z eqn:E; [| reflexivity].
  apply Z.eqb_eq in E. lia.
Qed.

Lemma zero_capacity_breaks_stats_witness :
  Py.wf (compressed_memories (init 0 0.7%Q 0.5%Q))
  /\ max_memory_size (init 0 0.7%Q 0.5%Q) = 0%Z
  /\ (0 <= compression_count (init 0 0.7%Q 0.5%Q))%Z
  /\ get_compression_stats
       (snd (compress_memory Examples.md5_sample Examples.no_entities
               (init 0 0.7%Q 0.5%Q) (Examples.clock_at Examples.noon)
               "alpha note" "generic" None)) = None.
Proof.
  assert (H1 : Py.wf (compressed_memories (init 0 0.7%Q 0.5%Q)))
    by constructor.
  assert (H2 : max_memory_size (init 0 0.7%Q 0.5%Q) = 0%Z) by reflexivity.
  assert (H3 : (0 <= compression_count (init 0 0.7%Q 0.5%Q))%Z)
    by (simpl; lia).
  split; [exact H1 |]. split; [exact H2 |]. split; [exact H3 |].
  apply (zero_capacity_breaks_stats Examples.md5_sample Examples.no_entities
           (init 0 0.7%Q 0.5%Q) (Examples.clock_at Examples.noon)
           "alpha note" "generic" None H1 H2 H3).
Defined.

(** ** Batches and summaries *)

Section BatchFacts.

Variable md5_hexdigest : string -> string.
Variable _extract_entities : string -> string -> list string.



End BatchFacts.


(** X24. A summary over identifiers of which none is found returns the
    empty string and changes nothing.  Otherwise the identifier
    returned retrieves the summary just stored, which lists the
    identifiers as they were given, at most 10 key points and at most 15
    entities; the entries, the ring and every other summary are as
    before. *)
Theorem summary_outcome (set_iteration : list string -> list string)
    (mc : MemoryCompressor) (now stamp : Q) (summary_type : string)
    (memory_ids : option (list string)) :
  let ids :=
    match memory_ids with Some ids => ids | None => recent_memories mc end in
  let result :=
    generate_summary set_iteration mc now stamp summary_type memory_ids in
  compressed_memories (snd result) = compressed_memories mc
  /\ recent_memories (snd result) = recent_memories mc
  /\ match resolve mc ids with
     | [] => result = (EmptyString, mc)
     | _ :: _ =>
         fst result
         = "summary_" ++ summary_type ++ "_" ++ Str.of_Z (int_of (now * 1000))
         /\ (exists summary,
               get_summary (snd result) (fst result) = Some summary
               /\ Summary.compressed_memories summary = ids
               /\ Summary.summary_type summary = summary_type
               /\ List.length (Summary.key_points summary) <= 10
               /\ List.length (Summary.entities summary) <= 15)
         /\ forall other,
              other <> fst result ->
              get_summary (snd result) other = get_summary mc other
     end.
Proof.
  cbv zeta. unfold generate_summary. fold (resolve mc
    match memory_ids with Some ids => ids | None => recent_memories mc end).
  destruct (resolve mc _) as [|m ms].
  - split; [reflexivity |]. split; reflexivity.
  - destruct (fold_left summary_step (m :: ms) ([], [], []))
      as [[key_points entities] decisions].
    split; [reflexivity |]. split; [reflexivity |].
    split; [reflexivity |]. split.
    + eexists. split; [unfold get_summary; simpl; apply lookup_insert_eq |].
      simpl. split; [reflexivity |]. split; [reflexivity |].
      split; apply firstn_le_length.
    + intros other Hne. unfold get_summary. simpl.
      apply lookup_insert_ne. simpl in Hne. congruence.
Qed.
